(** * Smart Delivery ETA Checker: the ETA engine (eta_engine.py, config.py)

    A shallow embedding of [ETAEngine] and of the parts of the Python
    runtime it relies on, followed by the properties of the projector and
    of the alert classifier.

    Conventions of the embedding.
    - A Python [float] is an exact rational ([Q]); [round], [timedelta] and
      [total_seconds] are the exact functions CPython approximates.  CPython
      rounds the binary value, so at a decimal tie (a delay of 3 seconds
      is 0.05 minutes) [round] there and [py_round] here can differ by one
      unit of the last digit; no property below fixes the value at a tie.
    - A [datetime] is a count of microseconds plus an optional UTC offset
      (absent for a naive value).  The year range of CPython is not
      modelled: where CPython raises OverflowError (a date after year
      9999, a timedelta of more than 999999999 days) the functions here
      return.  A call that returns in CPython returns the same here, so
      the properties of the projector are stated of calls that return,
      or say that a call does not return; a call of the projector is
      shown to return only on the inputs of the example runs.
    - An exception is a value of [exn]; a call that can raise returns a
      [result].
    - [geopy.distance.geodesic], [datetime.fromisoformat] and the generator
      behind [random.random] are library code: the engine takes them as
      parameters ([geodesic], [fromisoformat], [random]).
    - A [pandas.DataFrame] is an object on a heap: its column labels and its
      rows, each row with its index label. *)

From Stdlib Require Import Ascii String QArith Lqa Sorting.Sorted Sorting.Permutation.
From stdpp Require Import base option list strings gmap.

Local Open Scope Z_scope.

(** ** Exceptions *)

Inductive exn : Set :=
| ValueError   (* fromisoformat on a malformed string, geodesic on a bad latitude *)
| TypeError    (* subtracting a naive datetime from an aware one, or the converse *)
| KeyError.    (* a column label that the frame does not have *)

Inductive result (A : Type) : Type :=
| Ok (a : A)
| Raise (e : exn).
Arguments Ok {A} a.
Arguments Raise {A} e.

Global Instance result_ret : MRet result := fun A a => Ok a.

Global Instance result_bind : MBind result := fun A B f m =>
  match m with
  | Ok a => f a
  | Raise e => Raise e
  end.

(** ** Numbers *)

(** Rounding of an exact rational to the nearest integer, ties to even:
    the rounding of [round] and of [timedelta]. *)
Definition round_half_even (q : Q) : Z :=
  let d := Z.pos (Qden q) in
  let fl := Qnum q / d in
  let r := 2 * (Qnum q mod d) in
  if r <? d then fl
  else if d <? r then fl + 1
  else if Z.even fl then fl else fl + 1.

(** [round(x, ndigits)] for [ndigits] of 1 and 2. *)
Definition py_round (x : Q) (ndigits : nat) : Q :=
  let p := Pos.pow 10 (Pos.of_nat ndigits) in
  match ndigits with
  | O => inject_Z (round_half_even x)
  | _ => Qmake (round_half_even (x * inject_Z (Z.pos p))) p
  end.

(** ** datetime and timedelta *)

(** A [timedelta] is a whole number of microseconds. *)
Definition timedelta := Z.

Definition us_per_minute : Z := 60000000.

(** [timedelta(minutes=m)]: the float is converted to microseconds and
    rounded half to even. *)
Definition timedelta_minutes (m : Q) : timedelta :=
  round_half_even (m * inject_Z us_per_minute).

(** [td.total_seconds()] *)
Definition total_seconds (td : timedelta) : Q := Qmake td 1000000.

Record datetime : Set := mk_datetime {
  dt_us : Z;                (* wall-clock microseconds since 1970-01-01T00:00:00 *)
  dt_utcoffset : option Z   (* None: naive; Some o: aware, offset o in microseconds *)
}.

Global Instance datetime_eq_dec : EqDecision datetime.
Proof. solve_decision. Defined.

(** [d + td] *)
Definition dt_add (d : datetime) (td : timedelta) : datetime :=
  mk_datetime (dt_us d + td) (dt_utcoffset d).

(** [a - b]: naive values subtract as they are, aware values after both
    are taken to UTC, and a mixed pair raises TypeError. *)
Definition dt_sub (a b : datetime) : result timedelta :=
  match dt_utcoffset a, dt_utcoffset b with
  | None, None => Ok (dt_us a - dt_us b)
  | Some oa, Some ob => Ok ((dt_us a - oa) - (dt_us b - ob))
  | _, _ => Raise TypeError
  end.

(** [s.replace('Z', '+00:00')] *)
Fixpoint replace_Z (s : string) : string :=
  match s with
  | EmptyString => EmptyString
  | String c rest =>
      if Ascii.eqb c "Z"%char then ("+00:00" +:+ replace_Z rest)%string
      else String c (replace_Z rest)
  end.

(** ** Configuration (config.py, ETAConfig) *)

Record ETAConfig : Type := mk_config {
  DRIVER_SPEEDS : gmap string Q;
  STOP_SERVICE_TIME : Q;
  TRAFFIC_MULTIPLIER_RANGE : Q * Q;
  DELAY_THRESHOLD : Q
}.

(** The instance built by [ETAConfig()] with [__post_init__]. *)
Definition eta_config : ETAConfig :=
  {| DRIVER_SPEEDS :=
       <["driver_001"%string := 45%Q]>
         (<["driver_002"%string := 40%Q]>
            (<["driver_003"%string := 50%Q]> ∅));
     STOP_SERVICE_TIME := 5%Q;
     TRAFFIC_MULTIPLIER_RANGE := ((8 # 10)%Q, (15 # 10)%Q);
     DELAY_THRESHOLD := 15%Q |}.

(** ** Records of the engine *)

Definition point : Type := Q * Q.

Record Stop : Type := mk_stop {
  stop_id : string;
  stop_driver_id : string;
  stop_sequence : Z;
  stop_latitude : Q;
  stop_longitude : Q;
  stop_customer_name : string;
  stop_planned_eta : string
}.

Record DriverPosition : Type := mk_position {
  pos_driver_id : string;
  pos_timestamp : string;
  pos_latitude : Q;
  pos_longitude : Q
}.

(** The dict built at eta_engine.py:85-101.  [calculated_eta] holds the
    datetime whose [isoformat()] the code stores. *)
Record ETAResult : Type := mk_eta {
  driver_id : string;
  eta_stop_id : string;
  sequence : Z;
  customer_name : string;
  distance_km : Q;
  travel_time_min : Q;
  service_time_min : Q;
  planned_eta : string;
  calculated_eta : datetime;
  delay_minutes : Q;
  avg_speed_kmh : Q;
  traffic_multiplier : Q;
  is_delayed : bool;
  latitude : Q;
  longitude : Q
}.

(** The keys of that dict, in the order of the literal. *)
Definition eta_columns : list string :=
  ["driver_id"; "stop_id"; "sequence"; "customer_name"; "distance_km";
   "travel_time_min"; "service_time_min"; "planned_eta"; "calculated_eta";
   "delay_minutes"; "avg_speed_kmh"; "traffic_multiplier"; "is_delayed";
   "latitude"; "longitude"]%string.

(** [a > b] on floats *)
Definition Qgtb (a b : Q) : bool := negb (Qle_bool a b).

(** ** ETAEngine.calculate_travel_time (eta_engine.py:26-34) *)

Definition calculate_travel_time (distance_km avg_speed_kmh traffic_multiplier : Q) : Q :=
  if Qle_bool avg_speed_kmh 0 then 0%Q
  else
    let time_hours := ((distance_km / avg_speed_kmh) * traffic_multiplier)%Q in
    (time_hours * 60)%Q.

(** ** list.sort(key=lambda x: x['sequence']) (eta_engine.py:54)

    Python's sort is stable and ascending; a stable sort has one possible
    result, computed here by insertion. *)

Fixpoint insert_by_sequence (x : Stop) (l : list Stop) : list Stop :=
  match l with
  | [] => [x]
  | y :: l' =>
      if stop_sequence x <=? stop_sequence y then x :: y :: l'
      else y :: insert_by_sequence x l'
  end.

Fixpoint sort_by_sequence (l : list Stop) : list Stop :=
  match l with
  | [] => []
  | x :: l' => insert_by_sequence x (sort_by_sequence l')
  end.

(** A [for] loop whose body may raise: the state is threaded through the
    items and the first exception ends the loop. *)
Fixpoint for_each {S A : Type} (body : S -> A -> result S) (st : S) (items : list A)
  : result S :=
  match items with
  | [] => Ok st
  | x :: rest => st' ← body st x; for_each body st' rest
  end.

(** ** pandas.DataFrame *)

(** A row: its index label, the cells of the projector's columns, and the
    cells of the columns added afterwards (all of them strings here). *)
Record Row : Type := mk_row {
  row_label : nat;
  row_eta : ETAResult;
  row_extra : gmap string string
}.

Record DataFrame : Type := mk_frame {
  df_columns : list string;
  df_rows : list Row
}.

(** [pd.DataFrame(records)] for a list of the projector's dicts: the
    columns are the keys of the dicts, so an empty list gives a frame
    without columns; the index is 0, 1, 2, ... *)
Definition pd_DataFrame (records : list ETAResult) : DataFrame :=
  {| df_columns := match records with [] => [] | _ :: _ => eta_columns end;
     df_rows := imap (fun i r => mk_row i r ∅) records |}.

(** [pd.DataFrame()] *)
Definition empty_DataFrame : DataFrame := mk_frame [] [].

(** ** The projector *)

(** The variables the loop of [calculate_eta_for_driver] updates, with the
    number of values drawn so far from the random generator. *)
Record loop_state : Type := mk_loop {
  eta_results : list ETAResult;
  cumulative_time : datetime;
  current_position : point;
  rng_calls : nat
}.

Section Engine.

(** [geodesic(point1, point2).kilometers] *)
Variable geodesic : point -> point -> result Q.
(** [datetime.fromisoformat] *)
Variable fromisoformat : string -> result datetime.
(** The k-th value returned by [random.random()], k counted from 0. *)
Variable random : nat -> Q.
(** [self.config] *)
Variable config : ETAConfig.

(** ETAEngine.calculate_distance (eta_engine.py:20-24) *)
Definition calculate_distance (lat1 lon1 lat2 lon2 : Q) : result Q :=
  let point1 := (lat1, lon1) in
  let point2 := (lat2, lon2) in
  geodesic point1 point2.

(** [random.uniform(a, b)] is [a + (b - a) * random()]. *)
Definition uniform (a b : Q) (k : nat) : Q * nat :=
  ((a + (b - a) * random k)%Q, S k).

(** ETAEngine.generate_traffic_multiplier (eta_engine.py:36-39) *)
Definition generate_traffic_multiplier (k : nat) : Q * nat :=
  let '(min_mult, max_mult) := TRAFFIC_MULTIPLIER_RANGE config in
  uniform min_mult max_mult k.

(** [datetime.fromisoformat(s.replace('Z', '+00:00'))] *)
Definition parse_timestamp (s : string) : result datetime :=
  fromisoformat (replace_Z s).

(** The body of the loop at eta_engine.py:60-107. *)
Definition loop_body (driver_id : string) (avg_speed : Q)
    (st : loop_state) (stop : Stop) : result loop_state :=
  let stop_position := (stop_latitude stop, stop_longitude stop) in
  distance_km ← calculate_distance
                   (fst (current_position st)) (snd (current_position st))
                   (fst stop_position) (snd stop_position);
  let '(traffic_multiplier, k') := generate_traffic_multiplier (rng_calls st) in
  let travel_time_min := calculate_travel_time distance_km avg_speed traffic_multiplier in
  let arrival_time := dt_add (cumulative_time st) (timedelta_minutes travel_time_min) in
  planned_eta ← parse_timestamp (stop_planned_eta stop);
  delta ← dt_sub arrival_time planned_eta;
  let delay_minutes := (total_seconds delta / 60)%Q in
  let eta_result :=
    {| driver_id := driver_id;
       eta_stop_id := stop_id stop;
       sequence := stop_sequence stop;
       customer_name := stop_customer_name stop;
       distance_km := py_round distance_km 2;
       travel_time_min := py_round travel_time_min 1;
       service_time_min := STOP_SERVICE_TIME config;
       planned_eta := stop_planned_eta stop;
       calculated_eta := arrival_time;
       delay_minutes := py_round delay_minutes 1;
       avg_speed_kmh := avg_speed;
       traffic_multiplier := py_round traffic_multiplier 2;
       is_delayed := Qgtb delay_minutes (DELAY_THRESHOLD config);
       latitude := stop_latitude stop;
       longitude := stop_longitude stop |} in
  Ok {| eta_results := eta_results st ++ [eta_result];
        current_position := stop_position;
        cumulative_time :=
          dt_add arrival_time (timedelta_minutes (STOP_SERVICE_TIME config));
        rng_calls := k' |}.

(** The stops of one driver in visiting order (eta_engine.py:53-54). *)
Definition driver_stops_of (driver_id : string) (stops : list Stop) : list Stop :=
  sort_by_sequence (filter (fun s => stop_driver_id s = driver_id) stops).

(** ETAEngine.calculate_eta_for_driver (eta_engine.py:41-109).  [k] is the
    number of random values drawn before the call; the result carries the
    number drawn after it. *)
Definition calculate_eta_for_driver (k : nat)
    (driver_position : DriverPosition) (stops : list Stop)
  : result (list ETAResult * nat) :=
  let driver_id := pos_driver_id driver_position in
  let current_lat := pos_latitude driver_position in
  let current_lon := pos_longitude driver_position in
  current_time ← parse_timestamp (pos_timestamp driver_position);
  let avg_speed := default 45%Q (DRIVER_SPEEDS config !! driver_id) in
  let driver_stops := driver_stops_of driver_id stops in
  st ← for_each (loop_body driver_id avg_speed)
         {| eta_results := [];
            cumulative_time := current_time;
            current_position := (current_lat, current_lon);
            rng_calls := k |}
         driver_stops;
  Ok (eta_results st, rng_calls st).

(** ETAEngine.calculate_all_etas (eta_engine.py:111-124).  The two input
    frames are given as the lists [to_dict('records')] makes of them. *)
Definition calculate_all_etas (k : nat)
    (positions : list DriverPosition) (stops : list Stop)
  : result (DataFrame * nat) :=
  acc ← for_each
          (fun (acc : list ETAResult * nat) position =>
             '(driver_etas, k') ← calculate_eta_for_driver (snd acc) position stops;
             Ok (fst acc ++ driver_etas, k'))
          ([], k) positions;
  Ok (pd_DataFrame (fst acc), snd acc).

(** The multiplier drawn for the leg that uses the k-th random value. *)
Definition leg_multiplier (k : nat) : Q := fst (generate_traffic_multiplier k).

(** [self.config.DRIVER_SPEEDS.get(driver_id, 45.0)] *)
Definition driver_speed (driver_id : string) : Q :=
  default 45%Q (DRIVER_SPEEDS config !! driver_id).

Definition stop_position (s : Stop) : point := (stop_latitude s, stop_longitude s).

Definition driver_position_point (p : DriverPosition) : point :=
  (pos_latitude p, pos_longitude p).

End Engine.

(** ** Objects and references

    A frame lives on the heap; a variable holds a reference to it.  An
    operation of pandas that returns a new object allocates; an assignment
    to a column updates the object in place. *)

Definition ref : Set := nat.
Definition heap : Type := list DataFrame.

(** A computation on the heap that may raise; the heap is returned in
    both cases. *)
Definition heapM (A : Type) : Type := heap -> result A * heap.

Definition hret {A} (a : A) : heapM A := fun h => (Ok a, h).

Definition hbind {A B} (m : heapM A) (f : A -> heapM B) : heapM B :=
  fun h =>
    match m h with
    | (Ok a, h') => f a h'
    | (Raise e, h') => (Raise e, h')
    end.

Global Instance heapM_ret : MRet heapM := @hret.
Global Instance heapM_bind : MBind heapM := fun A B f m => hbind m f.

(** A new object. *)
Definition new (df : DataFrame) : heapM ref :=
  fun h => (Ok (length h), h ++ [df]).

(** The object behind a reference.  Every reference a Python program
    holds is to a live object; the KeyError here is never reached from
    one. *)
Definition deref (r : ref) : heapM DataFrame :=
  fun h =>
    match h !! r with
    | Some df => (Ok df, h)
    | None => (Raise KeyError, h)
    end.

(** An update of the object in place. *)
Definition assign (r : ref) (df : DataFrame) : heapM unit :=
  fun h => (Ok tt, <[r := df]> h).

(** [df[name]] for the two columns the classifier reads. *)
Definition column {A} (name : string) (cell : ETAResult -> A) (df : DataFrame)
  : result (list A) :=
  if decide (name ∈ df_columns df) then Ok (map (fun r => cell (row_eta r)) (df_rows df))
  else Raise KeyError.

Definition lift {A} (m : result A) : heapM A := fun h => (m, h).

(** [df[mask]]: a new frame with the rows where the mask holds. *)
Definition getitem_mask (r : ref) (mask : list bool) : heapM ref :=
  df ← deref r;
  new {| df_columns := df_columns df;
         df_rows := fst <$> filter (fun rm => snd rm = true) (zip (df_rows df) mask) |}.

(** [df.copy()] *)
Definition copy (r : ref) : heapM ref :=
  df ← deref r; new df.

(** [len(df)] *)
Definition len (r : ref) : heapM nat :=
  df ← deref r; hret (length (df_rows df)).

(** [df[name] = values] for a column outside those of the projector: the
    label is appended when the frame does not have it, and the cells of the
    rows are set, in place. *)
Definition setitem (r : ref) (name : string) (values : list string) : heapM unit :=
  df ← deref r;
  assign r
    {| df_columns :=
         if decide (name ∈ df_columns df) then df_columns df
         else df_columns df ++ [name];
       df_rows :=
         zip_with (fun row v =>
                     mk_row (row_label row) (row_eta row) (<[name := v]> (row_extra row)))
                  (df_rows df) values |}.

(** [df.sort_values('delay_minutes', ascending=False)]: a new frame.
    pandas leaves the order of rows with equal keys to the sorting
    algorithm; this one keeps them in their order. *)
Fixpoint insert_by_delay (x : Row) (l : list Row) : list Row :=
  match l with
  | [] => [x]
  | y :: l' =>
      if Qle_bool (delay_minutes (row_eta y)) (delay_minutes (row_eta x))
      then x :: y :: l'
      else y :: insert_by_delay x l'
  end.

Fixpoint sort_by_delay_desc (l : list Row) : list Row :=
  match l with
  | [] => []
  | x :: l' => insert_by_delay x (sort_by_delay_desc l')
  end.

Definition sort_values_delay_desc (r : ref) : heapM ref :=
  df ← deref r;
  _ ← lift (column "delay_minutes" delay_minutes df);
  new {| df_columns := df_columns df; df_rows := sort_by_delay_desc (df_rows df) |}.

(** The lambda at eta_engine.py:137. *)
Definition severity_of (x : Q) : string :=
  if Qgtb x 30 then "HIGH" else if Qgtb x 20 then "MEDIUM" else "LOW".

(** ETAEngine.generate_alerts (eta_engine.py:126-143).  [now] is the text
    of [datetime.now().isoformat()] at the call. *)
Definition generate_alerts (now : string) (eta_df : ref) : heapM ref :=
  df ← deref eta_df;
  flags ← lift (column "is_delayed" is_delayed df);
  selected ← getitem_mask eta_df (map (fun b => bool_decide (b = true)) flags);
  delayed_stops ← copy selected;
  n ← len delayed_stops;
  if decide (n = 0%nat) then new empty_DataFrame
  else
    _ ← setitem delayed_stops "alert_timestamp" (replicate n now);
    d ← deref delayed_stops;
    delays ← lift (column "delay_minutes" delay_minutes d);
    _ ← setitem delayed_stops "alert_severity" (map severity_of delays);
    sort_values_delay_desc delayed_stops.

(** ** Instances of the library functions, for running the engine

    [iso_fromisoformat] reads the texts [datetime.isoformat()] writes:
    YYYY-MM-DD, one separator character, HH:MM:SS, then optionally a
    fraction of six digits and optionally an offset +HH:MM or -HH:MM.
    It raises ValueError on every other text; on the texts it accepts it
    returns what CPython returns. *)

Definition digit (c : ascii) : option Z :=
  let n := Z.of_nat (nat_of_ascii c) in
  if (48 <=? n) && (n <=? 57) then Some (n - 48) else None.

Fixpoint digits (cs : list ascii) (acc : Z) : option Z :=
  match cs with
  | [] => Some acc
  | c :: cs' => d ← digit c; digits cs' (10 * acc + d)
  end.

Definition number (cs : list ascii) : option Z := digits cs 0.

Definition is_leap (y : Z) : bool :=
  (y mod 4 =? 0) && (negb (y mod 100 =? 0) || (y mod 400 =? 0)).

Definition days_in_month (y m : Z) : Z :=
  if m =? 2 then (if is_leap y then 29 else 28)
  else if (m =? 4) || (m =? 6) || (m =? 9) || (m =? 11) then 30
  else 31.

(** Days from 1970-01-01 to the given date of the proleptic Gregorian
    calendar. *)
Definition days_from_civil (y m d : Z) : Z :=
  let y' := if m <=? 2 then y - 1 else y in
  let era := y' / 400 in
  let yoe := y' - era * 400 in
  let mp := if 2 <? m then m - 3 else m + 9 in
  let doy := (153 * mp + 2) / 5 + d - 1 in
  let doe := yoe * 365 + yoe / 4 - yoe / 100 + doy in
  era * 146097 + doe - 719468.

Definition parse_offset (cs : list ascii) : option (option Z) :=
  match cs with
  | [] => Some None
  | [sg; h1; h2; c; m1; m2] =>
      sign ← (if Ascii.eqb sg "+" then Some 1
              else if Ascii.eqb sg "-" then Some (-1) else None);
      hh ← number [h1; h2];
      mm ← number [m1; m2];
      if Ascii.eqb c ":" && (hh <? 24) && (mm <? 60)
      then Some (Some (sign * (hh * 60 + mm) * us_per_minute))
      else None
  | _ => None
  end.

Definition parse_fraction (cs : list ascii) : option (Z * list ascii) :=
  match cs with
  | dot :: f1 :: f2 :: f3 :: f4 :: f5 :: f6 :: rest =>
      if Ascii.eqb dot "."
      then us ← number [f1; f2; f3; f4; f5; f6]; Some (us, rest)
      else Some (0, cs)
  | _ => Some (0, cs)
  end.

Definition parse_iso (cs : list ascii) : option datetime :=
  match cs with
  | y1 :: y2 :: y3 :: y4 :: c1 :: m1 :: m2 :: c2 :: d1 :: d2 :: _sep
      :: h1 :: h2 :: c3 :: n1 :: n2 :: c4 :: s1 :: s2 :: rest =>
      year ← number [y1; y2; y3; y4];
      month ← number [m1; m2];
      day ← number [d1; d2];
      hour ← number [h1; h2];
      minute ← number [n1; n2];
      second ← number [s1; s2];
      '(us, rest') ← parse_fraction rest;
      offset ← parse_offset rest';
      if Ascii.eqb c1 "-" && Ascii.eqb c2 "-" && Ascii.eqb c3 ":" && Ascii.eqb c4 ":"
         && (1 <=? year) && (1 <=? month) && (month <=? 12)
         && (1 <=? day) && (day <=? days_in_month year month)
         && (hour <? 24) && (minute <? 60) && (second <? 60)
      then
        Some (mk_datetime
                ((((days_from_civil year month day * 24 + hour) * 60 + minute) * 60
                  + second) * 1000000 + us)
                offset)
      else None
  | _ => None
  end.

Definition iso_fromisoformat (s : string) : result datetime :=
  match parse_iso (list_ascii_of_string s) with
  | Some d => Ok d
  | None => Raise ValueError
  end.

(** [table_geodesic t] is a distance oracle for the pairs of points listed
    in [t]: ValueError for a latitude outside [-90, 90] (as geopy), 0 from
    a point to itself, the listed distance for a listed pair. *)
Definition valid_latitude (p : point) : bool :=
  Qle_bool (-90) (fst p) && Qle_bool (fst p) 90.

Definition same_point (p q : point) : bool :=
  Qeq_bool (fst p) (fst q) && Qeq_bool (snd p) (snd q).

Fixpoint listed_distance (t : list (point * point * Q)) (p q : point) : Q :=
  match t with
  | [] => 0%Q
  | (a, b, d) :: t' =>
      if (same_point a p && same_point b q) || (same_point a q && same_point b p)
      then d else listed_distance t' p q
  end.

Definition table_geodesic (t : list (point * point * Q)) (p q : point) : result Q :=
  if valid_latitude p && valid_latitude q
  then Ok (if same_point p q then 0%Q else listed_distance t p q)
  else Raise ValueError.

(** ** DelayedETAEngine (demo_realistic_delays.py)

    The subclass overrides [generate_traffic_multiplier], which the loop of
    the inherited [calculate_eta_for_driver] calls through [self], and
    extends [calculate_eta_for_driver]. *)

(** The loop body and the projector of [ETAEngine] with the method
    [generate_traffic_multiplier] as a parameter: [gen k] is the multiplier
    drawn after [k] random values and the number of values drawn after
    it. *)
Definition loop_body_with (geodesic : point -> point -> result Q)
    (fromisoformat : string -> result datetime) (config : ETAConfig)
    (gen : nat -> Q * nat) (driver_id : string) (avg_speed : Q)
    (st : loop_state) (stop : Stop) : result loop_state :=
  let stop_position := (stop_latitude stop, stop_longitude stop) in
  distance_km ← calculate_distance geodesic
                   (fst (current_position st)) (snd (current_position st))
                   (fst stop_position) (snd stop_position);
  let '(traffic_multiplier, k') := gen (rng_calls st) in
  let travel_time_min := calculate_travel_time distance_km avg_speed traffic_multiplier in
  let arrival_time := dt_add (cumulative_time st) (timedelta_minutes travel_time_min) in
  planned_eta ← parse_timestamp fromisoformat (stop_planned_eta stop);
  delta ← dt_sub arrival_time planned_eta;
  let delay_minutes := (total_seconds delta / 60)%Q in
  let eta_result :=
    {| driver_id := driver_id;
       eta_stop_id := stop_id stop;
       sequence := stop_sequence stop;
       customer_name := stop_customer_name stop;
       distance_km := py_round distance_km 2;
       travel_time_min := py_round travel_time_min 1;
       service_time_min := STOP_SERVICE_TIME config;
       planned_eta := stop_planned_eta stop;
       calculated_eta := arrival_time;
       delay_minutes := py_round delay_minutes 1;
       avg_speed_kmh := avg_speed;
       traffic_multiplier := py_round traffic_multiplier 2;
       is_delayed := Qgtb delay_minutes (DELAY_THRESHOLD config);
       latitude := stop_latitude stop;
       longitude := stop_longitude stop |} in
  Ok {| eta_results := eta_results st ++ [eta_result];
        current_position := stop_position;
        cumulative_time :=
          dt_add arrival_time (timedelta_minutes (STOP_SERVICE_TIME config));
        rng_calls := k' |}.

Definition calculate_eta_for_driver_with (geodesic : point -> point -> result Q)
    (fromisoformat : string -> result datetime) (config : ETAConfig)
    (gen : nat -> Q * nat) (k : nat)
    (driver_position : DriverPosition) (stops : list Stop)
  : result (list ETAResult * nat) :=
  let driver_id := pos_driver_id driver_position in
  let current_lat := pos_latitude driver_position in
  let current_lon := pos_longitude driver_position in
  current_time ← parse_timestamp fromisoformat (pos_timestamp driver_position);
  let avg_speed := default 45%Q (DRIVER_SPEEDS config !! driver_id) in
  let driver_stops := driver_stops_of driver_id stops in
  st ← for_each (loop_body_with geodesic fromisoformat config gen driver_id avg_speed)
         {| eta_results := [];
            cumulative_time := current_time;
            current_position := (current_lat, current_lon);
            rng_calls := k |}
         driver_stops;
  Ok (eta_results st, rng_calls st).

(** DelayedETAEngine.generate_traffic_multiplier
    (demo_realistic_delays.py:16-24): [random.random() < 0.3], then, when
    that fails, a second [random.random() < 0.5], then one
    [random.uniform]. *)
Definition delayed_generate_traffic_multiplier (random : nat -> Q) (k : nat) : Q * nat :=
  if Qgtb (3 # 10) (random k) then uniform random 2 (35 # 10) (S k)
  else if Qgtb (5 # 10) (random (S k)) then uniform random (15 # 10) 2 (S (S k))
  else uniform random (8 # 10) (12 # 10) (S (S k)).

(** The body of the loop at demo_realistic_delays.py:33-48 on one record.
    [result['calculated_eta']] holds the text [isoformat()] wrote, which
    [fromisoformat] reads back to the same datetime; the planned time is
    read without the replacement of 'Z'. *)
Definition extend_service_time (fromisoformat : string -> result datetime)
    (random : nat -> Q) (config : ETAConfig)
    (acc : list ETAResult * nat) (eta_result : ETAResult)
  : result (list ETAResult * nat) :=
  let k := snd acc in
  if Qgtb (2 # 10) (random k) then
    let '(extra_service_time, k') := uniform random 5 15 (S k) in
    let original_eta := calculated_eta eta_result in
    let new_eta := dt_add original_eta (timedelta_minutes extra_service_time) in
    planned_eta' ← fromisoformat (planned_eta eta_result);
    delta ← dt_sub new_eta planned_eta';
    let delay_minutes' := (total_seconds delta / 60)%Q in
    Ok (fst acc ++
          [ {| driver_id := driver_id eta_result;
               eta_stop_id := eta_stop_id eta_result;
               sequence := sequence eta_result;
               customer_name := customer_name eta_result;
               distance_km := distance_km eta_result;
               travel_time_min := travel_time_min eta_result;
               service_time_min := (service_time_min eta_result + extra_service_time)%Q;
               planned_eta := planned_eta eta_result;
               calculated_eta := new_eta;
               delay_minutes := py_round delay_minutes' 1;
               avg_speed_kmh := avg_speed_kmh eta_result;
               traffic_multiplier := traffic_multiplier eta_result;
               is_delayed := Qgtb delay_minutes' (DELAY_THRESHOLD config);
               latitude := latitude eta_result;
               longitude := longitude eta_result |} ],
        k')
  else Ok (fst acc ++ [eta_result], S k).


(** The fields of a record that the extension of service times never
    writes. *)
Definition same_stop_fields (r r' : ETAResult) : Prop :=
  driver_id r' = driver_id r /\ eta_stop_id r' = eta_stop_id r /\
  sequence r' = sequence r /\ customer_name r' = customer_name r /\
  distance_km r' = distance_km r /\ travel_time_min r' = travel_time_min r /\
  planned_eta r' = planned_eta r /\ avg_speed_kmh r' = avg_speed_kmh r /\
  traffic_multiplier r' = traffic_multiplier r /\
  latitude r' = latitude r /\ longitude r' = longitude r.

(** [r'] is [r], or [r] after an extension of its service time by [extra]
    minutes. *)
Definition extension_of (fromisoformat : string -> result datetime)
    (config : ETAConfig) (r r' : ETAResult) : Prop :=
  r' = r \/
  exists extra planned delta,
    (5 <= extra)%Q /\ (extra <= 15)%Q /\
    service_time_min r' = (service_time_min r + extra)%Q /\
    calculated_eta r' = dt_add (calculated_eta r) (timedelta_minutes extra) /\
    fromisoformat (planned_eta r) = Ok planned /\
    dt_sub (calculated_eta r') planned = Ok delta /\
    delay_minutes r' = py_round (total_seconds delta / 60) 1 /\
    is_delayed r' = Qgtb (total_seconds delta / 60) (DELAY_THRESHOLD config).

(** ** The dashboard (dashboard.py)

    [DashboardData._process_driver_data] reads a frame of projections and
    builds one dict per driver.  It changes no frame, so the frames are
    values here, not objects on the heap. *)

(** [series.unique()]: the distinct values, in the order of their first
    appearance. *)
Fixpoint unique (l : list string) : list string :=
  match l with
  | [] => []
  | x :: l' => x :: filter (fun y => y <> x) (unique l')
  end.

(** [df[mask]], as a value. *)
Definition rows_where (df : DataFrame) (mask : list bool) : DataFrame :=
  {| df_columns := df_columns df;
     df_rows := fst <$> filter (fun rm => snd rm = true) (zip (df_rows df) mask) |}.

(** [series.sum()] and [series.mean()].  pandas gives NaN for the mean of
    an empty column; the dashboard takes the mean of the rows of a
    driver that has rows. *)
Definition series_sum (xs : list Q) : Q := foldr Qplus 0%Q xs.

Definition series_mean (xs : list Q) : Q :=
  (series_sum xs / inject_Z (Z.of_nat (length xs)))%Q.

(** The dict built at dashboard.py:108-117. *)
Record DriverData : Type := mk_driver_data {
  drv_driver_id : string;
  drv_total_stops : nat;
  drv_delayed_stops : nat;
  drv_on_time_stops : nat;
  drv_avg_delay : Q;
  drv_total_distance : Q;
  drv_avg_speed : Q;
  drv_status : string
}.

(** The body of the loop at dashboard.py:105-117. *)
Definition driver_entry (eta_df : DataFrame) (drivers : list DriverData)
    (d : string) : result (list DriverData) :=
  ids ← column "driver_id" driver_id eta_df;
  let driver_data := rows_where eta_df (map (fun x => bool_decide (x = d)) ids) in
  flags ← column "is_delayed" is_delayed driver_data;
  let delayed := rows_where driver_data (map (fun b => bool_decide (b = true)) flags) in
  let on_time := rows_where driver_data (map (fun b => bool_decide (b = false)) flags) in
  delays ← column "delay_minutes" delay_minutes driver_data;
  distances ← column "distance_km" distance_km driver_data;
  speeds ← column "avg_speed_kmh" avg_speed_kmh driver_data;
  Ok (drivers ++
        [ {| drv_driver_id := d;
             drv_total_stops := length (df_rows driver_data);
             drv_delayed_stops := length (df_rows delayed);
             drv_on_time_stops := length (df_rows on_time);
             drv_avg_delay := py_round (series_mean delays) 1;
             drv_total_distance := py_round (series_sum distances) 1;
             drv_avg_speed := py_round (series_mean speeds) 1;
             drv_status :=
               if decide (0 < length (df_rows delayed))%nat then "delayed"
               else "on_time" |} ]).

(** DashboardData._process_driver_data (dashboard.py:101-119). *)
Definition _process_driver_data (eta_df : DataFrame) : result (list DriverData) :=
  ids ← column "driver_id" driver_id eta_df;
  for_each (driver_entry eta_df) [] (unique ids).

(** The rows of a driver in a frame, and what the dashboard says of
    them. *)
Definition driver_rows (df : DataFrame) (d : string) : list Row :=
  filter (fun r => driver_id (row_eta r) = d) (df_rows df).

Definition flagged (rows : list Row) : list Row :=
  filter (fun r => is_delayed (row_eta r) = true) rows.

Definition summary_of (df : DataFrame) (d : string) : DriverData :=
  let rows := driver_rows df d in
  {| drv_driver_id := d;
     drv_total_stops := length rows;
     drv_delayed_stops := length (flagged rows);
     drv_on_time_stops := length (filter (fun r => is_delayed (row_eta r) = false) rows);
     drv_avg_delay := py_round (series_mean (map (fun r => delay_minutes (row_eta r)) rows)) 1;
     drv_total_distance := py_round (series_sum (map (fun r => distance_km (row_eta r)) rows)) 1;
     drv_avg_speed := py_round (series_mean (map (fun r => avg_speed_kmh (row_eta r)) rows)) 1;
     drv_status := if decide (0 < length (flagged rows))%nat then "delayed" else "on_time" |}.

(** ** Example runs

    One driver of the default configuration, observed at 10:00:00 at the
    depot; the random generator always returns 2/7, which makes every
    multiplier 1. *)

Definition depot : point := ((2520 # 100)%Q, (5527 # 100)%Q).
Definition first_address : point := ((2524 # 100)%Q, (5529 # 100)%Q).
Definition second_address : point := ((2528 # 100)%Q, (5531 # 100)%Q).

(** Depot to first address and first to second address: 5 km each. *)
Definition demo_geodesic : point -> point -> result Q :=
  table_geodesic [ (depot, first_address, 5%Q); (first_address, second_address, 5%Q);
                   (depot, second_address, 10%Q) ].

Definition demo_random : nat -> Q := fun _ => (2 # 7)%Q.

(** A generator that always returns 1/10: for the subclass, heavy traffic
    on every leg and a longer service at every stop. *)
Definition eager_random : nat -> Q := fun _ => (1 # 10)%Q.

Definition demo_position : DriverPosition :=
  {| pos_driver_id := "driver_001"; pos_timestamp := "2024-01-01T10:00:00";
     pos_latitude := fst depot; pos_longitude := snd depot |}.

Definition demo_stops : list Stop :=
  [ {| stop_id := "driver_001_stop_002"; stop_driver_id := "driver_001";
       stop_sequence := 2;
       stop_latitude := fst second_address; stop_longitude := snd second_address;
       stop_customer_name := "Customer_002";
       stop_planned_eta := "2024-01-01T11:00:00" |};
    {| stop_id := "driver_002_stop_001"; stop_driver_id := "driver_002";
       stop_sequence := 1;
       stop_latitude := fst depot; stop_longitude := snd depot;
       stop_customer_name := "Customer_003";
       stop_planned_eta := "2024-01-01T10:30:00" |};
    {| stop_id := "driver_001_stop_001"; stop_driver_id := "driver_001";
       stop_sequence := 1;
       stop_latitude := fst first_address; stop_longitude := snd first_address;
       stop_customer_name := "Customer_001";
       stop_planned_eta := "2024-01-01T10:30:00" |} ].

(** The same stops without those of the other driver. *)
Definition demo_stops_of_driver_001 : list Stop :=
  filter (fun s => stop_driver_id s = "driver_001") demo_stops.

Definition stop_at_depot (id : string) (seq : Z) (planned : string) : Stop :=
  {| stop_id := id; stop_driver_id := "driver_001"; stop_sequence := seq;
     stop_latitude := fst depot; stop_longitude := snd depot;
     stop_customer_name := "Customer"; stop_planned_eta := planned |}.

(** Three stops at the depot whose sequence numbers go down and repeat. *)
Definition disordered_stops : list Stop :=
  [ stop_at_depot "stop_a" 2 "2024-01-01T10:30:00";
    stop_at_depot "stop_b" 1 "2024-01-01T10:30:00";
    stop_at_depot "stop_c" 1 "2024-01-01T10:30:00" ].

(** The same three stops with the two of sequence number 1 exchanged. *)
Definition reordered_stops : list Stop :=
  [ stop_at_depot "stop_a" 2 "2024-01-01T10:30:00";
    stop_at_depot "stop_c" 1 "2024-01-01T10:30:00";
    stop_at_depot "stop_b" 1 "2024-01-01T10:30:00" ].

(** A position whose timestamp names a thirteenth month. *)
Definition unreadable_position : DriverPosition :=
  {| pos_driver_id := "driver_002"; pos_timestamp := "2024-13-01T10:00:00";
     pos_latitude := fst depot; pos_longitude := snd depot |}.

(** A stop at the depot planned one second before the observation. *)
Definition one_second_late : list Stop :=
  [ stop_at_depot "stop_a" 1 "2024-01-01T09:59:59" ].

(** A record delayed by exactly 30 minutes. *)
Definition half_hour_late : ETAResult :=
  {| driver_id := "driver_001"; eta_stop_id := "stop_a"; sequence := 1;
     customer_name := "Customer"; distance_km := 0%Q; travel_time_min := 0%Q;
     service_time_min := 5%Q; planned_eta := "2024-01-01T09:30:00";
     calculated_eta := mk_datetime 1704103200000000 None;
     delay_minutes := 30%Q; avg_speed_kmh := 45%Q; traffic_multiplier := 1%Q;
     is_delayed := true; latitude := fst depot; longitude := snd depot |}.

(** A record of another driver, five minutes early. *)
Definition five_minutes_early : ETAResult :=
  {| driver_id := "driver_002"; eta_stop_id := "stop_b"; sequence := 1;
     customer_name := "Customer"; distance_km := 0%Q; travel_time_min := 0%Q;
     service_time_min := 5%Q; planned_eta := "2024-01-01T10:05:00";
     calculated_eta := mk_datetime 1704103200000000 None;
     delay_minutes := (-5)%Q; avg_speed_kmh := 40%Q; traffic_multiplier := 1%Q;
     is_delayed := false; latitude := fst depot; longitude := snd depot |}.

(** A frame of three projections of two drivers. *)
Definition dashboard_frame : DataFrame :=
  pd_DataFrame [half_hour_late; five_minutes_early; half_hour_late].

(** The example position with a timestamp in UTC. *)
Definition utc_position : DriverPosition :=
  {| pos_driver_id := "driver_001"; pos_timestamp := "2024-01-01T10:00:00Z";
     pos_latitude := fst depot; pos_longitude := snd depot |}.

(** The projector on the example runs. *)
Definition demo_project : nat -> DriverPosition -> list Stop -> result (list ETAResult * nat) :=
  calculate_eta_for_driver demo_geodesic iso_fromisoformat demo_random eta_config.

(** The records of a call, or the exception it raises. *)
Definition records_of (m : result (list ETAResult * nat)) : result (list ETAResult) :=
  match m with
  | Ok (rs, _) => Ok rs
  | Raise e => Raise e
  end.

(** The order of the records by sequence number. *)
Definition by_sequence (a b : ETAResult) : Prop := sequence a <= sequence b.

(** The record is the one of the stop. *)
Definition record_of_stop (d : string) (s : Stop) (r : ETAResult) : Prop :=
  driver_id r = d /\ eta_stop_id r = stop_id s /\ sequence r = stop_sequence s /\
  customer_name r = stop_customer_name s /\ planned_eta r = stop_planned_eta s /\
  latitude r = stop_latitude s /\ longitude r = stop_longitude s.

(** The rows of a frame whose delayed flag is set. *)
Definition delayed_rows (df : DataFrame) : list Row :=
  filter (fun r => is_delayed (row_eta r) = true) (df_rows df).

(** A row with the two alert cells the classifier writes. *)
Definition with_alert (now : string) (r : Row) : Row :=
  mk_row (row_label r) (row_eta r)
    (<["alert_severity" := severity_of (delay_minutes (row_eta r))]>
       (<["alert_timestamp" := now]> (row_extra r))).

(** The labels of a frame after an assignment to the column [name]. *)
Definition add_column (name : string) (columns : list string) : list string :=
  if decide (name ∈ columns) then columns else columns ++ [name].

(** The order of the rows by delay, worst first. *)
Definition by_delay_desc (a b : Row) : Prop :=
  (delay_minutes (row_eta b) <= delay_minutes (row_eta a))%Q.

(** [keeps h0 m Q]: run from a heap that extends [h0], the computation
    leaves the objects of [h0] as they are, and a value it returns
    satisfies [Q]. *)
Definition keeps (h0 : heap) {A : Type} (m : heapM A) (Q : A -> Prop) : Prop :=
  forall h, h0 `prefix_of` h ->
    h0 `prefix_of` snd (m h) /\
    match fst (m h) with Ok a => Q a | Raise _ => True end.

(** The projections of the drivers of [positions] as a run makes them,
    one after the other, each with the random values left by those before
    it: [parts] are the records of the drivers, [k] and [k'] the numbers
    of random values drawn before the first and after the last. *)
Inductive projected_in_turn
    (project : nat -> DriverPosition -> result (list ETAResult * nat))
  : nat -> list DriverPosition -> list (list ETAResult) -> nat -> Prop :=
| projected_none (k : nat) : projected_in_turn project k [] [] k
| projected_next (k k1 k' : nat) (p : DriverPosition) (ps : list DriverPosition)
    (rs : list ETAResult) (parts : list (list ETAResult)) :
    project k p = Ok (rs, k1) ->
    projected_in_turn project k1 ps parts k' ->
    projected_in_turn project k (p :: ps) (rs :: parts) k'.

(** * Properties *)

(** ** The monad of results *)

Lemma bind_Ok {A B} (m : result A) (f : A -> result B) (b : B) :
  m ≫= f = Ok b -> exists a, m = Ok a /\ f a = Ok b.
Proof. destruct m as [a|e]; simpl; [eauto | discriminate]. Qed.

Lemma bind_Raise {A B} (m : result A) (f : A -> result B) (e : exn) :
  m ≫= f = Raise e -> m = Raise e \/ exists a, m = Ok a /\ f a = Raise e.
Proof. destruct m as [a|e']; simpl; [eauto | intros [= ->]; auto]. Qed.

(** ** Loops *)

Section ForEach.
Context {S A : Type} (body : S -> A -> result S).

Lemma for_each_app (st : S) (l1 l2 : list A) :
  for_each body st (l1 ++ l2) = st' ← for_each body st l1; for_each body st' l2.
Proof.
  revert st. induction l1 as [|x l1 IH]; intros st; simpl; [reflexivity|].
  destruct (body st x) as [st1|e]; simpl; [apply IH | reflexivity].
Qed.

(** The run of a loop that ends normally, cut at its i-th iteration. *)
Lemma for_each_at (st st' : S) (l : list A) (i : nat) (x : A) :
  for_each body st l = Ok st' -> l !! i = Some x ->
  exists sti sti',
    for_each body st (take i l) = Ok sti /\ body sti x = Ok sti' /\
    for_each body st (take (Datatypes.S i) l) = Ok sti' /\
    for_each body sti' (drop (Datatypes.S i) l) = Ok st'.
Proof.
  intros Hrun Hi.
  rewrite <- (take_drop_middle l i x Hi) in Hrun.
  rewrite for_each_app in Hrun.
  apply bind_Ok in Hrun as (sti & Hpre & Hrest). simpl in Hrest.
  apply bind_Ok in Hrest as (sti' & Hbody & Hpost).
  exists sti, sti'. repeat split; try assumption.
  rewrite (take_S_r l i x Hi), for_each_app, Hpre. simpl. now rewrite Hbody.
Qed.

(** An invariant of the body is an invariant of the loop. *)
Lemma for_each_invariant (P : S -> Prop) (st st' : S) (l : list A) :
  (forall s x s', P s -> body s x = Ok s' -> P s') ->
  P st -> for_each body st l = Ok st' -> P st'.
Proof.
  intros Hstep. revert st. induction l as [|x l IH]; intros st HP Hrun; simpl in Hrun.
  - now injection Hrun as <-.
  - apply bind_Ok in Hrun as (s1 & Hb & Hrun). eauto.
Qed.
End ForEach.

(** ** The sort by sequence *)

Definition sequence_le (a b : Stop) : Prop := stop_sequence a <= stop_sequence b.

Lemma insert_by_sequence_perm (x : Stop) (l : list Stop) :
  insert_by_sequence x l ≡ₚ x :: l.
Proof.
  induction l as [|y l IH]; simpl; [reflexivity|].
  destruct (stop_sequence x <=? stop_sequence y); [reflexivity|].
  rewrite IH. apply Permutation_swap.
Qed.

Lemma sort_by_sequence_perm (l : list Stop) : sort_by_sequence l ≡ₚ l.
Proof.
  induction l as [|x l IH]; simpl; [reflexivity|].
  now rewrite insert_by_sequence_perm, IH.
Qed.

Lemma sort_by_sequence_length (l : list Stop) :
  length (sort_by_sequence l) = length l.
Proof. apply Permutation_length, sort_by_sequence_perm. Qed.

Lemma insert_by_sequence_sorted (x : Stop) (l : list Stop) :
  StronglySorted sequence_le l -> StronglySorted sequence_le (insert_by_sequence x l).
Proof.
  induction 1 as [|y l Hs IH Hy]; simpl.
  - repeat constructor.
  - destruct (Z.leb_spec (stop_sequence x) (stop_sequence y)) as [Hle|Hlt].
    + constructor; [now constructor|].
      constructor; [exact Hle|].
      eapply Forall_impl; [exact Hy|]. unfold sequence_le. intros; lia.
    + constructor; [exact IH|].
      rewrite insert_by_sequence_perm. constructor; [|exact Hy].
      unfold sequence_le. lia.
  Qed.

Lemma sort_by_sequence_sorted (l : list Stop) :
  StronglySorted sequence_le (sort_by_sequence l).
Proof.
  induction l as [|x l IH]; simpl; [constructor|].
  now apply insert_by_sequence_sorted.
Qed.



(** Two sorted arrangements of the same stops are equal when no sequence
    number repeats. *)
Lemma sorted_by_distinct_sequence (l1 l2 : list Stop) :
  StronglySorted sequence_le l1 -> StronglySorted sequence_le l2 ->
  l1 ≡ₚ l2 -> NoDup (map stop_sequence l1) -> l1 = l2.
Proof.
  revert l2. induction l1 as [|x l1 IH]; intros l2 Hs1 Hs2 Hp Hnd.
  - now apply Permutation_nil_l in Hp.
  - destruct l2 as [|y l2]; [now apply Permutation_nil_r in Hp|].
    apply StronglySorted_inv in Hs1 as [Hs1 Hx], Hs2 as [Hs2 Hy].
    cbn in Hnd. apply NoDup_cons in Hnd as [Hfresh Hnd].
    assert (Hxy : x = y).
    { assert (Hin : x ∈ y :: l2) by (rewrite <- Hp; left).
      apply elem_of_cons in Hin as [Heq|Hin]; [exact Heq|].
      assert (Hin' : y ∈ x :: l1) by (rewrite Hp; left).
      apply elem_of_cons in Hin' as [Heq|Hin']; [now symmetry|].
      rewrite Forall_forall in Hx, Hy.
      specialize (Hx y Hin'). specialize (Hy x Hin). unfold sequence_le in *.
      exfalso. apply Hfresh. replace (stop_sequence x) with (stop_sequence y) by lia.
      apply list_elem_of_fmap. exists y. split; [reflexivity | exact Hin']. }
    subst y. f_equal. apply IH; try assumption.
    now apply Permutation_cons_inv in Hp.
Qed.

(** ** The loop of the projector *)

Section EngineFacts.
Variable geodesic : point -> point -> result Q.
Variable fromisoformat : string -> result datetime.
Variable random : nat -> Q.
Variable config : ETAConfig.

Abbreviation loop_body' := (loop_body geodesic fromisoformat random config).
Abbreviation parse' := (parse_timestamp fromisoformat).
Abbreviation multiplier' := (leg_multiplier random config).

Lemma generate_traffic_multiplier_eq (k : nat) :
  generate_traffic_multiplier random config k = (multiplier' k, S k).
Proof.
  unfold leg_multiplier, generate_traffic_multiplier, uniform.
  now destruct (TRAFFIC_MULTIPLIER_RANGE config).
Qed.

(** What one iteration that ends normally has computed. *)
Lemma loop_body_inv (d : string) (v : Q) (st st' : loop_state) (s : Stop) :
  loop_body' d v st s = Ok st' ->
  exists dist planned delta,
    geodesic (current_position st) (stop_position s) = Ok dist /\
    parse' (stop_planned_eta s) = Ok planned /\
    let travel := calculate_travel_time dist v (multiplier' (rng_calls st)) in
    let arrival := dt_add (cumulative_time st) (timedelta_minutes travel) in
    dt_sub arrival planned = Ok delta /\
    st' = {| eta_results := eta_results st ++
               [ {| driver_id := d;
                    eta_stop_id := stop_id s;
                    sequence := stop_sequence s;
                    customer_name := stop_customer_name s;
                    distance_km := py_round dist 2;
                    travel_time_min := py_round travel 1;
                    service_time_min := STOP_SERVICE_TIME config;
                    planned_eta := stop_planned_eta s;
                    calculated_eta := arrival;
                    delay_minutes := py_round (total_seconds delta / 60) 1;
                    avg_speed_kmh := v;
                    traffic_multiplier := py_round (multiplier' (rng_calls st)) 2;
                    is_delayed := Qgtb (total_seconds delta / 60) (DELAY_THRESHOLD config);
                    latitude := stop_latitude s;
                    longitude := stop_longitude s |} ];
             cumulative_time :=
               dt_add arrival (timedelta_minutes (STOP_SERVICE_TIME config));
             current_position := stop_position s;
             rng_calls := S (rng_calls st) |}.
Proof.
  unfold loop_body, calculate_distance. intros H.
  apply bind_Ok in H as (dist & Hd & H).
  rewrite generate_traffic_multiplier_eq in H.
  apply bind_Ok in H as (planned & Hp & H).
  apply bind_Ok in H as (delta & Hs & H).
  injection H as <-.
  exists dist, planned, delta. destruct (current_position st); simpl in *.
  repeat split; assumption.
Qed.

(** An iteration appends one record, moves the cursor to the stop and
    draws one random value. *)
Lemma loop_body_step (d : string) (v : Q) (st st' : loop_state) (s : Stop) :
  loop_body' d v st s = Ok st' ->
  exists r,
    eta_results st' = eta_results st ++ [r] /\
    current_position st' = stop_position s /\
    cumulative_time st' =
      dt_add (calculated_eta r) (timedelta_minutes (STOP_SERVICE_TIME config)) /\
    rng_calls st' = S (rng_calls st).
Proof.
  intros H. apply loop_body_inv in H as (dist & planned & delta & _ & _ & _ & ->).
  eexists. simpl. repeat split.
Qed.

Lemma loop_counts (d : string) (v : Q) (l : list Stop) (st st' : loop_state) :
  for_each (loop_body' d v) st l = Ok st' ->
  exists rs,
    eta_results st' = eta_results st ++ rs /\
    length rs = length l /\
    rng_calls st' = (rng_calls st + length l)%nat.
Proof.
  revert st. induction l as [|s l IH]; intros st H; simpl in H.
  - injection H as <-. exists []. rewrite app_nil_r. simpl. auto with lia.
  - apply bind_Ok in H as (st1 & Hb & H).
    apply loop_body_step in Hb as (r & Hr & _ & _ & Hk).
    apply IH in H as (rs & Hrs & Hlen & Hk').
    exists (r :: rs). rewrite Hrs, Hr, <- app_assoc. simpl.
    repeat split; lia.
Qed.

(** The i-th iteration of a loop that ends normally: the state it starts
    from, and the place of its record in the final list. *)
Lemma loop_iteration (d : string) (v : Q) (st0 st' : loop_state)
    (l : list Stop) (i : nat) (s : Stop) :
  for_each (loop_body' d v) st0 l = Ok st' -> l !! i = Some s ->
  exists sti sti' r,
    for_each (loop_body' d v) st0 (take i l) = Ok sti /\
    loop_body' d v sti s = Ok sti' /\
    for_each (loop_body' d v) st0 (take (S i) l) = Ok sti' /\
    rng_calls sti = (rng_calls st0 + i)%nat /\
    eta_results sti' = eta_results sti ++ [r] /\
    eta_results st' !! (length (eta_results st0) + i)%nat = Some r.
Proof.
  intros Hrun Hi.
  destruct (for_each_at _ _ _ _ _ _ Hrun Hi) as (sti & sti' & Hpre & Hb & Hpre' & Hpost).
  destruct (loop_body_step _ _ _ _ _ Hb) as (r & Hr & _).
  exists sti, sti', r.
  destruct (loop_counts _ _ _ _ _ Hpre) as (rs & Hrs & Hlen & Hk).
  destruct (loop_counts _ _ _ _ _ Hpost) as (rs' & Hrs' & _ & _).
  assert (Hi' : (i < length l)%nat) by (eapply lookup_lt_Some; eassumption).
  rewrite length_take in Hlen, Hk.
  repeat split; try assumption; [lia|].
  rewrite Hrs', Hr, Hrs, <- !app_assoc. simpl.
  rewrite lookup_app_r by lia.
  replace (length (eta_results st0) + i - length (eta_results st0))%nat with i by lia.
  rewrite lookup_app_r by lia.
  replace (i - length rs)%nat with 0%nat by lia. reflexivity.
Qed.

Lemma loop_records (d : string) (v : Q) (l : list Stop) (st st' : loop_state) :
  for_each (loop_body' d v) st l = Ok st' ->
  exists rs,
    eta_results st' = eta_results st ++ rs /\ Forall2 (record_of_stop d) l rs.
Proof.
  revert st. induction l as [|s l IH]; intros st H; simpl in H.
  - injection H as <-. exists []. rewrite app_nil_r. auto.
  - apply bind_Ok in H as (st1 & Hb & H).
    apply loop_body_inv in Hb as (dist & planned & delta & _ & _ & _ & ->).
    apply IH in H as (rs & Hrs & Hall). simpl in Hrs.
    eexists (_ :: rs). rewrite Hrs, <- app_assoc. split; [reflexivity|].
    constructor; [|exact Hall]. repeat split.
Qed.

Lemma elem_of_driver_stops_of (d : string) (stops : list Stop) (s : Stop) :
  s ∈ driver_stops_of d stops <-> s ∈ stops /\ stop_driver_id s = d.
Proof.
  unfold driver_stops_of. rewrite sort_by_sequence_perm.
  rewrite list_elem_of_filter. tauto.
Qed.

(** The records of a call that ends normally are those of the driver's
    stops in visiting order. *)
Lemma calculate_eta_for_driver_records (k k' : nat) (position : DriverPosition)
    (stops : list Stop) (results : list ETAResult) :
  calculate_eta_for_driver geodesic fromisoformat random config k position stops
  = Ok (results, k') ->
  Forall2 (record_of_stop (pos_driver_id position))
          (driver_stops_of (pos_driver_id position) stops) results.
Proof.
  unfold calculate_eta_for_driver. intros H.
  apply bind_Ok in H as (t0 & _ & H).
  apply bind_Ok in H as (st' & Hrun & H). injection H as <- <-.
  apply loop_records in Hrun as (rs & -> & Hall). exact Hall.
Qed.

End EngineFacts.

(** ** Records and stops *)

Lemma records_sorted (d : string) (l : list Stop) (rs : list ETAResult) :
  Forall2 (record_of_stop d) l rs ->
  StronglySorted sequence_le l -> StronglySorted by_sequence rs.
Proof.
  induction 1 as [|s r l rs Hsr Hall IH]; intros Hs; [constructor|].
  apply StronglySorted_inv in Hs as [Hs Hhd].
  constructor; [auto|].
  clear IH Hs. induction Hall as [|s' r' l rs Hsr' Hall IH]; [constructor|].
  apply Forall_cons in Hhd as [Hle Hhd]. constructor; [|auto].
  destruct Hsr as (_ & _ & Hq & _), Hsr' as (_ & _ & Hq' & _).
  unfold by_sequence, sequence_le in *. lia.
Qed.


(** ** The projector: completeness, order, validation *)

Section ProjectorOrder.
Variable geodesic : point -> point -> result Q.
Variable fromisoformat : string -> result datetime.
Variable random : nat -> Q.
Variable config : ETAConfig.

Abbreviation project' :=
  (calculate_eta_for_driver geodesic fromisoformat random config).

(** C7. A call of the projector that returns gives one record per stop of
    the driver: the records match, one to one and in order, a rearrangement
    of the stops that carry the driver's id, and their sequence numbers
    never decrease along the list. *)
Theorem one_record_per_stop_in_sequence_order (k k' : nat) (position : DriverPosition)
    (stops : list Stop) (results : list ETAResult) :
  project' k position stops = Ok (results, k') ->
  exists visited,
    visited ≡ₚ filter (fun s => stop_driver_id s = pos_driver_id position) stops /\
    Forall2 (record_of_stop (pos_driver_id position)) visited results /\
    length results
      = length (filter (fun s => stop_driver_id s = pos_driver_id position) stops) /\
    StronglySorted by_sequence results.
Proof.
  intros Hrun.
  pose proof (calculate_eta_for_driver_records _ _ _ _ _ _ _ _ _ Hrun) as Hall.
  exists (driver_stops_of (pos_driver_id position) stops).
  repeat split; try assumption.
  - apply sort_by_sequence_perm.
  - rewrite <- (Forall2_length _ _ _ Hall). apply sort_by_sequence_length.
  - eapply records_sorted; [exact Hall|]. apply sort_by_sequence_sorted.
Qed.


End ProjectorOrder.

(** ** The projector: chaining *)

Section ProjectorChaining.
Variable geodesic : point -> point -> result Q.
Variable fromisoformat : string -> result datetime.
Variable random : nat -> Q.
Variable config : ETAConfig.

Abbreviation body' := (loop_body geodesic fromisoformat random config).
Abbreviation service' := (timedelta_minutes (STOP_SERVICE_TIME config)).

(** The record of the i-th iteration, from the cursor the iteration starts
    with, and the cursor it leaves. *)
Lemma iteration_record (d : string) (v : Q) (st0 st' : loop_state)
    (l : list Stop) (i : nat) (s : Stop) (r : ETAResult) :
  for_each (body' d v) st0 l = Ok st' -> l !! i = Some s ->
  eta_results st' !! (length (eta_results st0) + i)%nat = Some r ->
  exists sti sti' dist,
    for_each (body' d v) st0 (take i l) = Ok sti /\
    for_each (body' d v) st0 (take (S i) l) = Ok sti' /\
    geodesic (current_position sti) (stop_position s) = Ok dist /\
    calculated_eta r
    = dt_add (cumulative_time sti)
        (timedelta_minutes
           (calculate_travel_time dist v
              (leg_multiplier random config (rng_calls st0 + i)))) /\
    current_position sti' = stop_position s /\
    cumulative_time sti' = dt_add (calculated_eta r) service'.
Proof.
  intros Hrun Hi Hr.
  destruct (loop_iteration _ _ _ _ _ _ _ _ _ _ _ Hrun Hi)
    as (sti & sti' & r' & Hpre & Hb & Hpre' & Hk & Hr' & Hlook).
  rewrite Hr in Hlook. injection Hlook as <-.
  destruct (loop_body_inv _ _ _ _ _ _ _ _ _ Hb)
    as (dist & planned & delta & Hd & _ & _ & Hst).
  exists sti, sti', dist. subst sti'. cbn [eta_results] in Hr'.
  apply app_inv_head in Hr'. injection Hr' as <-.
  rewrite <- Hk. cbn [calculated_eta current_position cumulative_time].
  repeat split; assumption.
Qed.

(** C1. In the list a call returns, the projected arrival of the first
    stop is the driver's observation time plus the travel time of the leg
    from the driver's position; the projected arrival of every later stop
    is that of the stop before it, plus the service time, plus the travel
    time of the leg between the two stops.  Every iteration of the loop,
    whatever the delay of its stop, leaves the cursor at the stop's
    position and at its projected arrival plus the service time. *)
Theorem sequential_chaining (k k' : nat) (position : DriverPosition)
    (stops : list Stop) (results : list ETAResult) :
  calculate_eta_for_driver geodesic fromisoformat random config k position stops
  = Ok (results, k') ->
  let d := pos_driver_id position in
  let route := driver_stops_of d stops in
  let v := driver_speed config d in
  let travel dist i :=
    timedelta_minutes (calculate_travel_time dist v (leg_multiplier random config (k + i))) in
  (forall s r, route !! 0%nat = Some s -> results !! 0%nat = Some r ->
     exists t0 dist,
       parse_timestamp fromisoformat (pos_timestamp position) = Ok t0 /\
       geodesic (driver_position_point position) (stop_position s) = Ok dist /\
       calculated_eta r = dt_add t0 (travel dist 0%nat)) /\
  (forall i s_prev s r_prev r,
     route !! i = Some s_prev -> route !! S i = Some s ->
     results !! i = Some r_prev -> results !! S i = Some r ->
     exists dist,
       geodesic (stop_position s_prev) (stop_position s) = Ok dist /\
       calculated_eta r
       = dt_add (dt_add (calculated_eta r_prev) service') (travel dist (S i))) /\
  (forall st s st',
     body' d v st s = Ok st' ->
     exists r,
       eta_results st' = eta_results st ++ [r] /\
       current_position st' = stop_position s /\
       cumulative_time st' = dt_add (calculated_eta r) service').
Proof.
  unfold calculate_eta_for_driver. intros H.
  apply bind_Ok in H as (t0 & Ht0 & H).
  apply bind_Ok in H as (st' & Hrun & H). injection H as <- <-.
  cbv zeta. repeat split.
  - intros s r Hs Hr.
    destruct (iteration_record _ _ _ _ _ _ _ _ Hrun Hs Hr)
      as (sti & _ & dist & Hpre & _ & Hd & Hr' & _).
    simpl in Hpre. injection Hpre as <-. simpl in *.
    exists t0, dist. auto.
  - intros i s_prev s r_prev r Hsp Hs Hrp Hr.
    destruct (iteration_record _ _ _ _ _ _ _ _ Hrun Hsp Hrp)
      as (_ & sti' & _ & _ & Hpre' & _ & _ & Hpos & Htime).
    destruct (iteration_record _ _ _ _ _ _ _ _ Hrun Hs Hr)
      as (sti & _ & dist & Hpre & _ & Hd & Hr' & _).
    rewrite Hpre' in Hpre. injection Hpre as <-.
    rewrite Hpos in Hd. rewrite Htime in Hr'. simpl in Hr'.
    exists dist. auto.
  - intros st s st0 Hb.
    destruct (loop_body_step _ _ _ _ _ _ _ _ _ Hb) as (r & Hr & Hpos & Htime & _).
    eauto.
Qed.

End ProjectorChaining.

(** ** Rounding *)

Lemma round_half_even_positive (q : Q) : 0 < round_half_even q -> 0 < Qnum q.
Proof.
  unfold round_half_even.
  pose proof (Z.div_mod (Qnum q) (Z.pos (Qden q)) ltac:(lia)) as Hdm.
  pose proof (Z.mod_pos_bound (Qnum q) (Z.pos (Qden q)) ltac:(lia)) as Hm.
  repeat match goal with |- context [Z.ltb ?a ?b] => destruct (Z.ltb_spec a b) end;
    try destruct (Z.even _); intros; nia.
Qed.

Lemma round_half_even_negative (q : Q) : round_half_even q < 0 -> Qnum q < 0.
Proof.
  unfold round_half_even.
  pose proof (Z.div_mod (Qnum q) (Z.pos (Qden q)) ltac:(lia)) as Hdm.
  pose proof (Z.mod_pos_bound (Qnum q) (Z.pos (Qden q)) ltac:(lia)) as Hm.
  repeat match goal with |- context [Z.ltb ?a ?b] => destruct (Z.ltb_spec a b) end;
    try destruct (Z.even _); intros; nia.
Qed.

(** The rounding is 0 exactly on the interval from -1/2 to 1/2. *)
Lemma round_half_even_zero (q : Q) :
  round_half_even q = 0 <-> - Z.pos (Qden q) <= 2 * Qnum q <= Z.pos (Qden q).
Proof.
  unfold round_half_even.
  pose proof (Z.div_mod (Qnum q) (Z.pos (Qden q)) ltac:(lia)) as Hdm.
  pose proof (Z.mod_pos_bound (Qnum q) (Z.pos (Qden q)) ltac:(lia)) as Hm.
  set (d := Z.pos (Qden q)) in *. set (n := Qnum q) in *.
  set (fl := n / d) in *. set (m := n mod d) in *.
  assert (Hd : 0 < d) by (subst d; lia).
  destruct (Z.ltb_spec (2 * m) d) as [Hlt|Hge].
  - split; [intros ->; lia | intros [Hlo Hhi]; nia].
  - destruct (Z.ltb_spec d (2 * m)) as [Hgt|Hle].
    + split; [intros Hfl; assert (fl = -1) as -> by lia; lia | intros [Hlo Hhi]; nia].
    + assert (Htie : 2 * m = d) by lia.
      destruct (Z.even fl) eqn:Hev.
      * split; [intros ->; lia|]. intros [Hlo Hhi].
        assert (Hcases : fl = 0 \/ fl = -1) by nia.
        destruct Hcases as [->| ->]; [reflexivity | discriminate Hev].
      * split; [intros Hfl; assert (fl = -1) as -> by lia; lia|]. intros [Hlo Hhi].
        assert (Hcases : fl = 0 \/ fl = -1) by nia.
        destruct Hcases as [->| ->]; [discriminate Hev | reflexivity].
Qed.

(** The delay of a record, rounded to one decimal, against the difference
    in microseconds it is computed from. *)
Lemma rounded_delay_sign (delta : timedelta) :
  let delay := py_round (total_seconds delta / 60) 1 in
  ((0 < delay)%Q -> 0 < delta) /\
  ((delay < 0)%Q -> delta < 0) /\
  (-3000000 < delta < 3000000 -> (delay == 0)%Q) /\
  ((delay == 0)%Q -> -3000000 <= delta <= 3000000).
Proof.
  cbv zeta. unfold py_round.
  set (x := (total_seconds delta / 60 * inject_Z (Z.pos (10 ^ Pos.of_nat 1)))%Q).
  assert (Hn : Qnum x = delta * 1 * 10) by reflexivity.
  assert (Hd : Z.pos (Qden x) = 60000000) by reflexivity.
  pose proof (round_half_even_positive x) as Hpos.
  pose proof (round_half_even_negative x) as Hneg.
  pose proof (round_half_even_zero x) as Hzero.
  rewrite Hn, Hd in *.
  unfold Qlt, Qeq. cbn [Qnum Qden].
  repeat split; intros; lia.
Qed.

(** ** The projector: delay of a record *)

Section ProjectorDelay.
Variable geodesic : point -> point -> result Q.
Variable fromisoformat : string -> result datetime.
Variable random : nat -> Q.
Variable config : ETAConfig.

Lemma loop_delays (d : string) (v : Q) (l : list Stop) (st st' : loop_state)
    (P : ETAResult -> Prop) :
  (forall r planned delta,
     parse_timestamp fromisoformat (planned_eta r) = Ok planned ->
     dt_sub (calculated_eta r) planned = Ok delta ->
     delay_minutes r = py_round (total_seconds delta / 60) 1 ->
     is_delayed r = Qgtb (total_seconds delta / 60) (DELAY_THRESHOLD config) ->
     P r) ->
  for_each (loop_body geodesic fromisoformat random config d v) st l = Ok st' ->
  Forall P (eta_results st) -> Forall P (eta_results st').
Proof.
  intros HP Hrun Hst.
  refine (for_each_invariant _ (fun s => Forall P (eta_results s)) _ _ _ _ Hst Hrun).
  intros s x s' Hs Hb.
  apply loop_body_inv in Hb as (dist & planned & delta & _ & Hp & Hsub & ->).
  cbn [eta_results]. apply Forall_app. split; [exact Hs|].
  constructor; [|constructor]. eapply HP; cbn; eauto.
Qed.

(** C8, as amended.  The delay of an emitted record, which is rounded to
    one decimal, against the difference between projected and planned
    arrival: it is positive only if the projected arrival is strictly
    after the planned one and negative only if it is strictly before; it is
    zero whenever the two are less than three seconds apart, so also when
    they are equal, and only if they are at most three seconds apart. *)
Theorem delay_sign_of_rounded_value (k k' : nat) (position : DriverPosition)
    (stops : list Stop) (results : list ETAResult) :
  calculate_eta_for_driver geodesic fromisoformat random config k position stops
  = Ok (results, k') ->
  forall r, r ∈ results ->
  exists planned delta,
    parse_timestamp fromisoformat (planned_eta r) = Ok planned /\
    dt_sub (calculated_eta r) planned = Ok delta /\
    ((0 < delay_minutes r)%Q -> 0 < delta) /\
    ((delay_minutes r < 0)%Q -> delta < 0) /\
    (-3000000 < delta < 3000000 -> (delay_minutes r == 0)%Q) /\
    ((delay_minutes r == 0)%Q -> -3000000 <= delta <= 3000000).
Proof.
  unfold calculate_eta_for_driver. intros H r Hr.
  apply bind_Ok in H as (t0 & _ & H).
  apply bind_Ok in H as (st' & Hrun & H). injection H as <- <-.
  revert r Hr. apply Forall_forall.
  refine (loop_delays _ _ _ _ _ _ _ Hrun _); [|constructor].
  intros r planned delta Hp Hsub Hdelay _.
  exists planned, delta. rewrite Hdelay.
  destruct (rounded_delay_sign delta) as (Hpos & Hneg & Hnear & Hzero).
  split; [exact Hp|]. split; [exact Hsub|].
  split; [exact Hpos|]. split; [exact Hneg|]. split; [exact Hnear | exact Hzero].
Qed.

End ProjectorDelay.

(** ** The projector: what a call depends on *)

Section ProjectorDependence.
Variable geodesic : point -> point -> result Q.
Variable fromisoformat : string -> result datetime.
Variable config : ETAConfig.

Abbreviation body_with random := (loop_body geodesic fromisoformat random config).

(** Two iterations on the same stop, from states that agree on the
    records and the cursor and draw the same multiplier, end alike. *)
Lemma loop_body_same_samples (random1 random2 : nat -> Q) (d : string) (v : Q)
    (st1 st2 : loop_state) (s : Stop) :
  eta_results st1 = eta_results st2 ->
  cumulative_time st1 = cumulative_time st2 ->
  current_position st1 = current_position st2 ->
  leg_multiplier random1 config (rng_calls st1)
  = leg_multiplier random2 config (rng_calls st2) ->
  match body_with random1 d v st1 s, body_with random2 d v st2 s with
  | Ok a, Ok b =>
      eta_results a = eta_results b /\ cumulative_time a = cumulative_time b /\
      current_position a = current_position b /\
      rng_calls a = S (rng_calls st1) /\ rng_calls b = S (rng_calls st2)
  | Raise e1, Raise e2 => e1 = e2
  | _, _ => False
  end.
Proof.
  intros Hr Ht Hp Hm. unfold loop_body, calculate_distance.
  rewrite !generate_traffic_multiplier_eq, <- Hr, <- Ht, <- Hp, <- Hm.
  destruct (geodesic _ _) as [dist|e]; cbn; [|reflexivity].
  destruct (parse_timestamp fromisoformat _) as [planned|e]; cbn; [|reflexivity].
  destruct (dt_sub _ planned) as [delta|e]; cbn; [|reflexivity].
  repeat split.
Qed.

Lemma loop_same_samples (random1 random2 : nat -> Q) (d : string) (v : Q)
    (l : list Stop) (st1 st2 : loop_state) :
  eta_results st1 = eta_results st2 ->
  cumulative_time st1 = cumulative_time st2 ->
  current_position st1 = current_position st2 ->
  (forall i, (i < length l)%nat ->
     leg_multiplier random1 config (rng_calls st1 + i)
     = leg_multiplier random2 config (rng_calls st2 + i)) ->
  match for_each (body_with random1 d v) st1 l, for_each (body_with random2 d v) st2 l with
  | Ok a, Ok b => eta_results a = eta_results b
  | Raise e1, Raise e2 => e1 = e2
  | _, _ => False
  end.
Proof.
  revert st1 st2. induction l as [|s l IH]; intros st1 st2 Hr Ht Hp Hm; cbn; [exact Hr|].
  pose proof (loop_body_same_samples random1 random2 d v st1 st2 s Hr Ht Hp) as Hb.
  specialize (Hm 0%nat ltac:(cbn; lia)) as Hm0. rewrite !Nat.add_0_r in Hm0.
  specialize (Hb Hm0).
  destruct (body_with random1 d v st1 s) as [a|e1],
           (body_with random2 d v st2 s) as [b|e2]; cbn; try contradiction; try exact Hb.
  destruct Hb as (Hr' & Ht' & Hp' & Hk1 & Hk2).
  apply (IH a b Hr' Ht' Hp').
  intros i Hi. rewrite Hk1, Hk2.
  specialize (Hm (S i) ltac:(cbn; lia)).
  replace (S (rng_calls st1) + i)%nat with (rng_calls st1 + S i)%nat by lia.
  replace (S (rng_calls st2) + i)%nat with (rng_calls st2 + S i)%nat by lia.
  exact Hm.
Qed.

(** Two calls that visit the same route and draw the same multipliers
    return the same records or raise the same exception. *)
Lemma same_route_same_records (random1 random2 : nat -> Q) (k1 k2 : nat)
    (position : DriverPosition) (stops1 stops2 : list Stop) :
  driver_stops_of (pos_driver_id position) stops1
  = driver_stops_of (pos_driver_id position) stops2 ->
  (forall i,
     (i < length (driver_stops_of (pos_driver_id position) stops1))%nat ->
     leg_multiplier random1 config (k1 + i) = leg_multiplier random2 config (k2 + i)) ->
  records_of (calculate_eta_for_driver geodesic fromisoformat random1 config
                k1 position stops1)
  = records_of (calculate_eta_for_driver geodesic fromisoformat random2 config
                  k2 position stops2).
Proof.
  intros Hroute Hm. unfold calculate_eta_for_driver.
  rewrite <- Hroute.
  destruct (parse_timestamp fromisoformat (pos_timestamp position)) as [t0|e];
    cbn; [|reflexivity].
  match goal with
  | |- context [for_each ?b1 ?s1 ?l] =>
      match goal with
      | |- context [for_each (body_with random2 ?d ?v) ?s2 l] =>
          pose proof (loop_same_samples random1 random2 d v l s1 s2
                        eq_refl eq_refl eq_refl Hm) as Hloop
      end
  end.
  destruct (for_each (body_with random1 _ _) _ _) as [a|e1],
           (for_each (body_with random2 _ _) _ _) as [b|e2]; cbn;
    try contradiction; congruence.
Qed.

(** C9, as amended.  Two calls for the same driver position, under the
    same configuration, with random generators that give the same
    multipliers to the driver's legs, return the same records, or raise
    the same exception, when the two stop lists hold the same stops of
    that driver in the same order, or hold them in any order and the
    driver's sequence numbers are distinct: what the lists hold for other
    drivers does not matter. *)
Theorem driver_noninterference (random1 random2 : nat -> Q) (k1 k2 : nat)
    (position : DriverPosition) (stops1 stops2 : list Stop) :
  (filter (fun s => stop_driver_id s = pos_driver_id position) stops1
   = filter (fun s => stop_driver_id s = pos_driver_id position) stops2 \/
   (filter (fun s => stop_driver_id s = pos_driver_id position) stops1
    ≡ₚ filter (fun s => stop_driver_id s = pos_driver_id position) stops2 /\
    NoDup (map stop_sequence
             (filter (fun s => stop_driver_id s = pos_driver_id position) stops1)))) ->
  (forall i,
     (i < length (filter (fun s => stop_driver_id s = pos_driver_id position) stops1))%nat ->
     leg_multiplier random1 config (k1 + i) = leg_multiplier random2 config (k2 + i)) ->
  records_of (calculate_eta_for_driver geodesic fromisoformat random1 config
                k1 position stops1)
  = records_of (calculate_eta_for_driver geodesic fromisoformat random2 config
                  k2 position stops2).
Proof.
  intros Hstops Hm. apply same_route_same_records.
  - unfold driver_stops_of. destruct Hstops as [Hsame | [Hperm Hnd]].
    + now rewrite Hsame.
    + apply sorted_by_distinct_sequence.
      * apply sort_by_sequence_sorted.
      * apply sort_by_sequence_sorted.
      * now rewrite !sort_by_sequence_perm.
      * now rewrite sort_by_sequence_perm.
  - unfold driver_stops_of. now rewrite sort_by_sequence_length.
Qed.

End ProjectorDependence.

(** ** The run over all drivers *)

Section AllDrivers.
Variable geodesic : point -> point -> result Q.
Variable fromisoformat : string -> result datetime.
Variable random : nat -> Q.
Variable config : ETAConfig.

Abbreviation project_at k := (calculate_eta_for_driver geodesic fromisoformat random config k).

Abbreviation extend_with stops :=
  (fun (acc : list ETAResult * nat) position =>
     '(driver_etas, k') ← project_at (snd acc) position stops;
     Ok (fst acc ++ driver_etas, k')).

Abbreviation project_on stops := (fun k p => project_at k p stops).

Lemma all_drivers_ok (stops : list Stop) (positions : list DriverPosition)
    (acc acc' : list ETAResult * nat) :
  for_each (extend_with stops) acc positions = Ok acc' <->
  exists parts,
    projected_in_turn (project_on stops) (snd acc) positions parts (snd acc') /\
    fst acc' = fst acc ++ concat parts.
Proof.
  revert acc. induction positions as [|p positions IH]; intros acc; cbn [for_each].
  - split.
    + intros [= <-]. exists []. cbn. rewrite app_nil_r. split; [constructor | reflexivity].
    + intros (parts & Hturn & Hacc). inversion Hturn; subst. cbn in Hacc.
      rewrite app_nil_r in Hacc. destruct acc, acc'; cbn in *. congruence.
  - split.
    + intros H. apply bind_Ok in H as (acc1 & Hb & H).
      apply bind_Ok in Hb as ([rs k1] & Hp & Hb). injection Hb as <-.
      apply IH in H as (parts & Hturn & Hacc). cbn in Hturn, Hacc.
      exists (rs :: parts). split; [econstructor; eassumption|].
      rewrite Hacc. cbn. now rewrite app_assoc.
    + intros (parts & Hturn & Hacc). inversion Hturn as [|? k1 ? ? ? rs parts' Hp Hrest]; subst.
      rewrite Hp. cbn. apply IH. exists parts'. cbn. split; [exact Hrest|].
      rewrite Hacc. cbn. now rewrite app_assoc.
Qed.

Lemma all_drivers_raise (stops : list Stop) (positions : list DriverPosition)
    (acc : list ETAResult * nat) (e : exn) :
  for_each (extend_with stops) acc positions = Raise e <->
  exists before p after parts k1,
    positions = before ++ p :: after /\
    projected_in_turn (project_on stops) (snd acc) before parts k1 /\
    project_at k1 p stops = Raise e.
Proof.
  revert acc. induction positions as [|p positions IH]; intros acc; cbn [for_each].
  - split; [discriminate|].
    intros (before & q & after & _ & _ & Hnil & _). now destruct before.
  - split.
    + intros H. apply bind_Raise in H as [Hb | (acc1 & Hb & H)].
      * apply bind_Raise in Hb as [Hp | ([rs k1] & _ & [=])].
        exists [], p, positions, [], (snd acc). split; [reflexivity|].
        split; [constructor | exact Hp].
      * apply bind_Ok in Hb as ([rs k1] & Hp & Hb). injection Hb as <-.
        apply IH in H as (before & q & after & parts & k2 & -> & Hturn & Hq).
        cbn in Hturn.
        exists (p :: before), q, after, (rs :: parts), k2. split; [reflexivity|].
        split; [econstructor; eassumption | exact Hq].
    + intros (before & q & after & parts & k1 & Hpos & Hturn & Hq).
      destruct before as [|p' before]; cbn in Hpos; injection Hpos as <- ->.
      * inversion Hturn; subst. now rewrite Hq.
      * inversion Hturn as [|? k2 ? ? ? rs parts' Hp Hrest]; subst.
        rewrite Hp. cbn. apply IH. exists before, q, after, parts', k1. cbn. auto.
Qed.

(** C3, as amended.  The run has no isolation of failures.  It returns
    projections exactly when the projection of every driver, made in turn
    with the random values left by the drivers before it, ends normally,
    and then the frame holds the records of the drivers one after the
    other, in the order of the positions.  It raises exactly when the
    projection of some driver raises after those of the drivers before it
    ended normally; the run then raises the exception of that driver and
    returns no record of any driver. *)
Theorem one_failure_aborts_the_run (k : nat) (positions : list DriverPosition)
    (stops : list Stop) :
  (forall df k',
      calculate_all_etas geodesic fromisoformat random config k positions stops
      = Ok (df, k')
      <-> exists parts,
            projected_in_turn (project_on stops) k positions parts k' /\
            df = pd_DataFrame (concat parts)) /\
  (forall e,
      calculate_all_etas geodesic fromisoformat random config k positions stops
      = Raise e
      <-> exists before p after parts k1,
            positions = before ++ p :: after /\
            projected_in_turn (project_on stops) k before parts k1 /\
            project_at k1 p stops = Raise e).
Proof.
  unfold calculate_all_etas. split.
  - intros df k'. split.
    + intros H. apply bind_Ok in H as (acc' & Hrun & H). injection H as <- <-.
      apply all_drivers_ok in Hrun as (parts & Hturn & Hacc).
      exists parts. split; [exact Hturn|]. now rewrite Hacc.
    + intros (parts & Hturn & ->).
      assert (Hrun : for_each (extend_with stops) ([], k) positions
                     = Ok (concat parts, k')).
      { apply all_drivers_ok. exists parts. split; [exact Hturn | reflexivity]. }
      rewrite Hrun. reflexivity.
  - intros e. split.
    + intros H. apply bind_Raise in H as [Hloop | (acc' & _ & [=])].
      apply all_drivers_raise in Hloop. exact Hloop.
    + intros H. apply (all_drivers_raise stops positions ([], k) e) in H.
      rewrite H. reflexivity.
Qed.

End AllDrivers.

(** ** The travel time *)

(** C6. For every distance and multiplier, the travel time is 0 when the
    average speed is at most 0, and otherwise it is the distance divided
    by the speed, times the multiplier, times 60. *)
Theorem degenerate_speed_guard (distance_km avg_speed_kmh traffic_multiplier : Q) :
  ((avg_speed_kmh <= 0)%Q ->
   calculate_travel_time distance_km avg_speed_kmh traffic_multiplier = 0%Q) /\
  (~ (avg_speed_kmh <= 0)%Q ->
   calculate_travel_time distance_km avg_speed_kmh traffic_multiplier
   = (distance_km / avg_speed_kmh * traffic_multiplier * 60)%Q).
Proof.
  unfold calculate_travel_time. split; intros H.
  - apply Qle_bool_iff in H. now rewrite H.
  - destruct (Qle_bool avg_speed_kmh 0) eqn:E; [|reflexivity].
    apply Qle_bool_iff in E. contradiction.
Qed.

(** ** Computations on the heap *)

Lemma hbind_Ok {A B} (m : heapM A) (f : A -> heapM B) (h h' : heap) (a : A) :
  m h = (Ok a, h') -> (m ≫= f) h = f a h'.
Proof. intros H. unfold mbind, heapM_bind, hbind. now rewrite H. Qed.

Lemma hbind_Raise {A B} (m : heapM A) (f : A -> heapM B) (h h' : heap) (e : exn) :
  m h = (Raise e, h') -> (m ≫= f) h = (Raise e, h').
Proof. intros H. unfold mbind, heapM_bind, hbind. now rewrite H. Qed.

Lemma deref_Some (r : ref) (h : heap) (df : DataFrame) :
  h !! r = Some df -> deref r h = (Ok df, h).
Proof. intros H. unfold deref. now rewrite H. Qed.

Lemma deref_None (r : ref) (h : heap) :
  h !! r = None -> deref r h = (Raise KeyError, h).
Proof. intros H. unfold deref. now rewrite H. Qed.

Lemma lookup_created_0 (h : heap) (a : DataFrame) (rest : list DataFrame) :
  (h ++ a :: rest) !! length h = Some a.
Proof. now apply list_lookup_middle. Qed.

Lemma lookup_created_1 (h : heap) (a b : DataFrame) (rest : list DataFrame) :
  (h ++ a :: b :: rest) !! S (length h) = Some b.
Proof.
  rewrite lookup_app_r by lia. now replace (S (length h) - length h)%nat with 1%nat by lia.
Qed.

Lemma assign_created_1 (h : heap) (a b x : DataFrame) :
  assign (S (length h)) x (h ++ [a; b]) = (Ok tt, h ++ [a; x]).
Proof.
  unfold assign. rewrite (insert_app_r_alt h [a; b]) by lia.
  now replace (S (length h) - length h)%nat with 1%nat by lia.
Qed.

(** ** Masks and columns *)

Lemma mask_filter (rows : list Row) :
  fst <$> filter (fun rm : Row * bool => snd rm = true)
            (zip rows (map (fun b => bool_decide (b = true))
                         (map (fun r => is_delayed (row_eta r)) rows)))
  = filter (fun r => is_delayed (row_eta r) = true) rows.
Proof.
  induction rows as [|r rows IH]; [reflexivity|].
  cbn [map zip zip_with]. rewrite !filter_cons. cbn [snd].
  destruct (is_delayed (row_eta r)).
  - change (bool_decide (true = true)) with true.
    rewrite !decide_True by reflexivity. cbn [fmap list_fmap fst]. f_equal. exact IH.
  - change (bool_decide (false = true)) with false.
    rewrite !decide_False by discriminate. exact IH.
Qed.

Lemma zip_with_replicate {A B C} (f : A -> B -> C) (l : list A) (x : B) :
  zip_with f l (replicate (length l) x) = map (fun a => f a x) l.
Proof. induction l as [|a l IH]; cbn; [reflexivity | now rewrite IH]. Qed.

(** ** The sort by delay *)

Lemma insert_by_delay_perm (x : Row) (l : list Row) :
  insert_by_delay x l ≡ₚ x :: l.
Proof.
  induction l as [|y l IH]; cbn; [reflexivity|].
  destruct (Qle_bool _ _); [reflexivity|].
  rewrite IH. apply Permutation_swap.
Qed.

Lemma sort_by_delay_desc_perm (l : list Row) : sort_by_delay_desc l ≡ₚ l.
Proof.
  induction l as [|x l IH]; cbn; [reflexivity|].
  now rewrite insert_by_delay_perm, IH.
Qed.

Lemma insert_by_delay_sorted (x : Row) (l : list Row) :
  StronglySorted by_delay_desc l -> StronglySorted by_delay_desc (insert_by_delay x l).
Proof.
  induction 1 as [|y l Hs IH Hy]; cbn.
  - repeat constructor.
  - destruct (Qle_bool (delay_minutes (row_eta y)) (delay_minutes (row_eta x))) eqn:E.
    + apply Qle_bool_iff in E.
      constructor; [now constructor|].
      constructor; [exact E|].
      eapply Forall_impl; [exact Hy|]. unfold by_delay_desc. intros z Hz.
      eapply Qle_trans; eassumption.
    + assert (Hlt : (delay_minutes (row_eta x) <= delay_minutes (row_eta y))%Q).
      { destruct (Qlt_le_dec (delay_minutes (row_eta x)) (delay_minutes (row_eta y)))
          as [Hlt|Hle]; [now apply Qlt_le_weak|].
        apply Qle_bool_iff in Hle. congruence. }
      constructor; [exact IH|].
      rewrite insert_by_delay_perm. constructor; [exact Hlt | exact Hy].
Qed.

Lemma sort_by_delay_desc_sorted (l : list Row) :
  StronglySorted by_delay_desc (sort_by_delay_desc l).
Proof.
  induction l as [|x l IH]; cbn; [constructor|].
  now apply insert_by_delay_sorted.
Qed.

(** ** The operations of pandas on the heap *)

Lemma lift_run {A} (m : result A) (h : heap) : lift m h = (m, h).
Proof. reflexivity. Qed.

Lemma column_run {A} (name : string) (cell : ETAResult -> A) (df : DataFrame) :
  name ∈ df_columns df ->
  column name cell df = Ok (map (fun r => cell (row_eta r)) (df_rows df)).
Proof. intros H. unfold column. now rewrite decide_True by exact H. Qed.

Lemma getitem_mask_run (r : ref) (mask : list bool) (h : heap) (df : DataFrame) :
  h !! r = Some df ->
  getitem_mask r mask h
  = (Ok (length h),
     h ++ [ {| df_columns := df_columns df;
               df_rows := fst <$> filter (fun rm : Row * bool => snd rm = true)
                                    (zip (df_rows df) mask) |} ]).
Proof.
  intros H. unfold getitem_mask. now rewrite (hbind_Ok _ _ _ _ _ (deref_Some _ _ _ H)).
Qed.

Lemma copy_run (r : ref) (h : heap) (df : DataFrame) :
  h !! r = Some df -> copy r h = (Ok (length h), h ++ [df]).
Proof.
  intros H. unfold copy. now rewrite (hbind_Ok _ _ _ _ _ (deref_Some _ _ _ H)).
Qed.

Lemma len_run (r : ref) (h : heap) (df : DataFrame) :
  h !! r = Some df -> len r h = (Ok (length (df_rows df)), h).
Proof.
  intros H. unfold len. now rewrite (hbind_Ok _ _ _ _ _ (deref_Some _ _ _ H)).
Qed.

Lemma setitem_run (r : ref) (name : string) (values : list string) (h : heap)
    (df : DataFrame) :
  h !! r = Some df ->
  setitem r name values h
  = assign r
      {| df_columns := add_column name (df_columns df);
         df_rows :=
           zip_with (fun row v =>
                       mk_row (row_label row) (row_eta row) (<[name := v]> (row_extra row)))
                    (df_rows df) values |} h.
Proof.
  intros H. unfold setitem. now rewrite (hbind_Ok _ _ _ _ _ (deref_Some _ _ _ H)).
Qed.

Lemma sort_values_delay_desc_run (r : ref) (h : heap) (df : DataFrame) :
  h !! r = Some df -> "delay_minutes" ∈ df_columns df ->
  sort_values_delay_desc r h
  = (Ok (length h),
     h ++ [ {| df_columns := df_columns df;
               df_rows := sort_by_delay_desc (df_rows df) |} ]).
Proof.
  intros H Hc. unfold sort_values_delay_desc.
  rewrite (hbind_Ok _ _ _ _ _ (deref_Some _ _ _ H)).
  unfold column. rewrite decide_True by exact Hc.
  now rewrite (hbind_Ok _ _ _ _ _ (lift_run _ _)).
Qed.

Lemma elem_of_add_column (name other : string) (columns : list string) :
  name ∈ columns -> name ∈ add_column other columns.
Proof.
  intros H. unfold add_column. case_decide; [exact H|].
  apply elem_of_app. now left.
Qed.

(** ** The classifier, step by step *)

Lemma alert_cells (now : string) (rows : list Row) :
  let stamped :=
    map (fun a => mk_row (row_label a) (row_eta a)
                    (<["alert_timestamp" := now]> (row_extra a))) rows in
  zip_with (fun row v =>
              mk_row (row_label row) (row_eta row)
                (<["alert_severity" := v]> (row_extra row)))
    stamped
    (map severity_of (map (fun r => delay_minutes (row_eta r)) stamped))
  = map (with_alert now) rows.
Proof.
  cbv zeta. induction rows as [|r rows IH]; [reflexivity|].
  cbn [map zip_with]. now rewrite IH.
Qed.

(** The call on a frame with the flag column and no delayed row. *)
Lemma generate_alerts_none (now : string) (eta_df : ref) (h : heap) (df : DataFrame) :
  h !! eta_df = Some df -> "is_delayed" ∈ df_columns df -> delayed_rows df = [] ->
  generate_alerts now eta_df h
  = (Ok (S (S (length h))),
     h ++ [mk_frame (df_columns df) []; mk_frame (df_columns df) []; empty_DataFrame]).
Proof.
  intros Hdf Hcol Hnone. unfold generate_alerts.
  rewrite (hbind_Ok _ _ _ _ _ (deref_Some _ _ _ Hdf)).
  unfold column. rewrite decide_True by exact Hcol.
  rewrite (hbind_Ok _ _ _ _ _ (lift_run _ _)).
  rewrite (hbind_Ok _ _ _ _ _ (getitem_mask_run _ _ _ _ Hdf)).
  rewrite mask_filter. fold (delayed_rows df). rewrite Hnone.
  rewrite (hbind_Ok _ _ _ _ _ (copy_run _ _ _ (lookup_created_0 _ _ _))).
  rewrite <- app_assoc, length_app. cbn [app length]. rewrite Nat.add_1_r.
  rewrite (hbind_Ok _ _ _ _ _ (len_run _ _ _ (lookup_created_1 _ _ _ _))).
  cbn [df_rows length]. destruct (decide (0%nat = 0%nat)) as [_|Hne]; [|congruence].
  unfold new. rewrite <- app_assoc, length_app. cbn [app length].
  now replace (length h + 2)%nat with (S (S (length h))) by lia.
Qed.

(** The call on a frame with the flag and delay columns and a delayed
    row. *)
Lemma generate_alerts_some (now : string) (eta_df : ref) (h : heap) (df : DataFrame) :
  h !! eta_df = Some df ->
  "is_delayed" ∈ df_columns df -> "delay_minutes" ∈ df_columns df ->
  delayed_rows df <> [] ->
  let columns := add_column "alert_severity" (add_column "alert_timestamp" (df_columns df)) in
  let rows := map (with_alert now) (delayed_rows df) in
  generate_alerts now eta_df h
  = (Ok (S (S (length h))),
     h ++ [mk_frame (df_columns df) (delayed_rows df);
           mk_frame columns rows;
           mk_frame columns (sort_by_delay_desc rows)]).
Proof.
  intros Hdf Hcol Hdelay Hsome. cbv zeta. unfold generate_alerts.
  rewrite (hbind_Ok _ _ _ _ _ (deref_Some _ _ _ Hdf)).
  rewrite (column_run "is_delayed" is_delayed df Hcol).
  rewrite (hbind_Ok _ _ _ _ _ (lift_run _ _)).
  rewrite (hbind_Ok _ _ _ _ _ (getitem_mask_run _ _ _ _ Hdf)).
  rewrite mask_filter. fold (delayed_rows df).
  rewrite (hbind_Ok _ _ _ _ _ (copy_run _ _ _ (lookup_created_0 _ _ _))).
  rewrite <- app_assoc, length_app. cbn [app length]. rewrite Nat.add_1_r.
  rewrite (hbind_Ok _ _ _ _ _ (len_run _ _ _ (lookup_created_1 _ _ _ _))).
  cbn [df_rows].
  destruct (decide (length (delayed_rows df) = 0%nat)) as [Hlen|_];
    [apply length_zero_iff_nil in Hlen; contradiction|].
  rewrite (hbind_Ok _ _ _ _ _
             (eq_trans (setitem_run _ _ _ _ _ (lookup_created_1 _ _ _ _))
                       (assign_created_1 _ _ _ _))).
  cbn [df_rows df_columns]. rewrite zip_with_replicate.
  rewrite (hbind_Ok _ _ _ _ _ (deref_Some _ _ _ (lookup_created_1 _ _ _ _))).
  rewrite (column_run "delay_minutes" delay_minutes)
    by (cbn [df_columns]; now apply elem_of_add_column).
  cbn [df_columns df_rows].
  rewrite (hbind_Ok _ _ _ _ _ (lift_run _ _)).
  rewrite (hbind_Ok _ _ _ _ _
             (eq_trans (setitem_run _ _ _ _ _ (lookup_created_1 _ _ _ _))
                       (assign_created_1 _ _ _ _))).
  cbn [df_rows df_columns].
  rewrite (sort_values_delay_desc_run _ _ _ (lookup_created_1 _ _ _ _))
    by (cbn [df_columns]; now do 2 apply elem_of_add_column).
  rewrite <- app_assoc, length_app. cbn [app length df_columns df_rows].
  replace (length h + 2)%nat with (S (S (length h))) by lia.
  now rewrite alert_cells.
Qed.

(** ** Objects a computation leaves alone *)

Lemma keeps_bind {A B} (h0 : heap) (m : heapM A) (f : A -> heapM B)
    (Q : A -> Prop) (R : B -> Prop) :
  keeps h0 m Q -> (forall a, Q a -> keeps h0 (f a) R) -> keeps h0 (m ≫= f) R.
Proof.
  intros Hm Hf h Hh. destruct (Hm h Hh) as [Hpre HQ].
  unfold mbind, heapM_bind, hbind.
  destruct (m h) as [[a|e] h'] eqn:E; cbn in *; [|auto].
  exact (Hf a HQ h' Hpre).
Qed.

Lemma keeps_new (h0 : heap) (df : DataFrame) :
  keeps h0 (new df) (fun r => (length h0 <= r)%nat).
Proof.
  intros h Hh. cbn. split.
  - now apply prefix_app_r.
  - now apply prefix_length.
Qed.

Lemma keeps_deref (h0 : heap) (r : ref) : keeps h0 (deref r) (fun _ => True).
Proof. intros h Hh. unfold deref. case_match; cbn; split; auto. Qed.

Lemma keeps_lift {A} (h0 : heap) (m : result A) : keeps h0 (lift m) (fun _ => True).
Proof. intros h Hh. cbn. split; [exact Hh | now destruct m]. Qed.

Lemma keeps_hret {A} (h0 : heap) (a : A) : keeps h0 (hret a) (fun _ => True).
Proof. intros h Hh. cbn. split; auto. Qed.

(** An assignment to an object that is not one of [h0]. *)
Lemma keeps_assign (h0 : heap) (r : ref) (df : DataFrame) :
  (length h0 <= r)%nat -> keeps h0 (assign r df) (fun _ => True).
Proof.
  intros Hr h [ext ->]. cbn. split; [|exact I].
  rewrite (insert_app_r_alt h0 ext) by exact Hr. now apply prefix_app_r.
Qed.

Lemma keeps_getitem_mask (h0 : heap) (r : ref) (mask : list bool) :
  keeps h0 (getitem_mask r mask) (fun r' => (length h0 <= r')%nat).
Proof.
  unfold getitem_mask. eapply keeps_bind; [apply keeps_deref|].
  intros df _. apply keeps_new.
Qed.

Lemma keeps_copy (h0 : heap) (r : ref) :
  keeps h0 (copy r) (fun r' => (length h0 <= r')%nat).
Proof.
  unfold copy. eapply keeps_bind; [apply keeps_deref|].
  intros df _. apply keeps_new.
Qed.

Lemma keeps_len (h0 : heap) (r : ref) : keeps h0 (len r) (fun _ => True).
Proof.
  unfold len. eapply keeps_bind; [apply keeps_deref|].
  intros df _. apply keeps_hret.
Qed.

Lemma keeps_setitem (h0 : heap) (r : ref) (name : string) (values : list string) :
  (length h0 <= r)%nat -> keeps h0 (setitem r name values) (fun _ => True).
Proof.
  intros Hr. unfold setitem. eapply keeps_bind; [apply keeps_deref|].
  intros df _. now apply keeps_assign.
Qed.

Lemma keeps_sort_values (h0 : heap) (r : ref) :
  keeps h0 (sort_values_delay_desc r) (fun r' => (length h0 <= r')%nat).
Proof.
  unfold sort_values_delay_desc. eapply keeps_bind; [apply keeps_deref|].
  intros df _. eapply keeps_bind; [apply keeps_lift|].
  intros _ _. apply keeps_new.
Qed.

Lemma keeps_generate_alerts (h0 : heap) (now : string) (eta_df : ref) :
  keeps h0 (generate_alerts now eta_df) (fun r => (length h0 <= r)%nat).
Proof.
  unfold generate_alerts.
  eapply keeps_bind; [apply keeps_deref|]. intros df _.
  eapply keeps_bind; [apply keeps_lift|]. intros flags _.
  eapply keeps_bind; [apply keeps_getitem_mask|]. intros selected _.
  eapply keeps_bind; [apply keeps_copy|]. intros delayed_stops Hfresh.
  eapply keeps_bind; [apply keeps_len|]. intros n _.
  case_decide; [apply keeps_new|].
  eapply keeps_bind; [now apply keeps_setitem|]. intros _ _.
  eapply keeps_bind; [apply keeps_deref|]. intros d _.
  eapply keeps_bind; [apply keeps_lift|]. intros delays _.
  eapply keeps_bind; [now apply keeps_setitem|]. intros _ _.
  apply keeps_sort_values.
Qed.

(** ** The classifier *)

(** C10. Whatever the heap and the reference passed, and whether the call
    returns or raises, the heap after the call is the heap before it
    followed by the objects the call created: the input frame, like every
    object that existed, has the columns, the rows and the order of rows it
    had.  The frame returned is one of the created objects. *)
Theorem generate_alerts_leaves_input_unchanged (now : string) (eta_df : ref) (h : heap) :
  exists created,
    snd (generate_alerts now eta_df h) = h ++ created /\
    snd (generate_alerts now eta_df h) !! eta_df = h !! eta_df /\
    forall alerts, fst (generate_alerts now eta_df h) = Ok alerts ->
                   (length h <= alerts)%nat.
Proof.
  destruct (keeps_generate_alerts h now eta_df h) as [[created Hpre] Hres]; [reflexivity|].
  exists created. split; [exact Hpre|]. split.
  - destruct (h !! eta_df) as [df|] eqn:Hdf.
    + rewrite Hpre. now apply lookup_app_l_Some.
    + unfold generate_alerts.
      now rewrite (hbind_Raise _ _ _ _ _ (deref_None _ _ Hdf)).
  - intros alerts Hfst. now rewrite Hfst in Hres.
Qed.

Lemma Qgtb_iff (a b : Q) : Qgtb a b = true <-> (b < a)%Q.
Proof.
  unfold Qgtb. rewrite negb_true_iff. split.
  - intros H. apply Qnot_le_lt. rewrite <- Qle_bool_iff. congruence.
  - intros H. destruct (Qle_bool a b) eqn:E; [|reflexivity].
    apply Qle_bool_iff in E. exfalso. eapply Qlt_not_le; eassumption.
Qed.

Lemma Qgtb_false_iff (a b : Q) : Qgtb a b = false <-> (a <= b)%Q.
Proof.
  unfold Qgtb. rewrite negb_false_iff. apply Qle_bool_iff.
Qed.

Lemma severity_of_spec (x : Q) :
  (severity_of x = "HIGH" <-> (30 < x)%Q) /\
  (severity_of x = "MEDIUM" <-> (20 < x)%Q /\ (x <= 30)%Q) /\
  (severity_of x = "LOW" <-> (x <= 20)%Q).
Proof.
  unfold severity_of.
  destruct (Qgtb x 30) eqn:E30; [apply Qgtb_iff in E30 | apply Qgtb_false_iff in E30];
    (destruct (Qgtb x 20) eqn:E20; [apply Qgtb_iff in E20 | apply Qgtb_false_iff in E20]);
    repeat split; intros; try discriminate; try reflexivity; try lra.
Qed.

Lemma lookup_created_2 (h : heap) (a b c : DataFrame) :
  (h ++ [a; b; c]) !! S (S (length h)) = Some c.
Proof.
  rewrite lookup_app_r by lia.
  now replace (S (S (length h)) - length h)%nat with 2%nat by lia.
Qed.

Lemma pd_DataFrame_columns (records : list ETAResult) :
  records <> [] -> df_columns (pd_DataFrame records) = eta_columns.
Proof. destruct records; [congruence | reflexivity]. Qed.

Lemma pd_DataFrame_row (records : list ETAResult) (rec : ETAResult) :
  rec ∈ records -> exists i, mk_row i rec ∅ ∈ df_rows (pd_DataFrame records).
Proof.
  intros Hin. apply list_elem_of_lookup in Hin as (i & Hi). exists i.
  apply list_elem_of_lookup. exists i. cbn. rewrite list_lookup_imap, Hi. reflexivity.
Qed.

Lemma is_delayed_column : "is_delayed" ∈ eta_columns.
Proof. unfold eta_columns. set_solver. Qed.

Lemma delay_minutes_column : "delay_minutes" ∈ eta_columns.
Proof. unfold eta_columns. set_solver. Qed.

(** C4. For every delayed record of a frame of projections, the frame of
    alerts returned holds a row of that record whose severity cell is HIGH
    if and only if the delay is above 30, MEDIUM if and only if it is above
    20 and at most 30, LOW if and only if it is at most 20. *)
Theorem severity_bucketing (now : string) (eta_df : ref) (h : heap)
    (records : list ETAResult) (rec : ETAResult) :
  h !! eta_df = Some (pd_DataFrame records) ->
  rec ∈ records -> is_delayed rec = true ->
  exists alerts h' out row severity,
    generate_alerts now eta_df h = (Ok alerts, h') /\
    h' !! alerts = Some out /\
    row ∈ df_rows out /\ row_eta row = rec /\
    row_extra row !! "alert_severity" = Some severity /\
    (severity = "HIGH" <-> (30 < delay_minutes rec)%Q) /\
    (severity = "MEDIUM" <-> (20 < delay_minutes rec)%Q /\ (delay_minutes rec <= 30)%Q) /\
    (severity = "LOW" <-> (delay_minutes rec <= 20)%Q).
Proof.
  intros Hdf Hin Hdelayed.
  assert (Hne : records <> []) by (intros ->; inversion Hin).
  destruct (pd_DataFrame_row records rec Hin) as (i & Hrow).
  assert (Hsel : mk_row i rec ∅ ∈ delayed_rows (pd_DataFrame records)).
  { unfold delayed_rows. apply list_elem_of_filter. split; [exact Hdelayed | exact Hrow]. }
  assert (Hsome : delayed_rows (pd_DataFrame records) <> []).
  { intros Hnil. rewrite Hnil in Hsel. inversion Hsel. }
  pose proof (generate_alerts_some now eta_df h (pd_DataFrame records) Hdf) as Hrun.
  rewrite (pd_DataFrame_columns records Hne) in Hrun.
  specialize (Hrun is_delayed_column delay_minutes_column Hsome). cbv zeta in Hrun.
  eexists _, _, _, (with_alert now (mk_row i rec ∅)), _.
  split; [exact Hrun|]. split; [apply lookup_created_2|].
  split; [|split; [reflexivity|]].
  - cbn [df_rows]. rewrite sort_by_delay_desc_perm.
    apply list_elem_of_fmap. exists (mk_row i rec ∅). split; [reflexivity | exact Hsel].
  - split; [apply lookup_insert_eq|]. cbn [row_eta]. apply severity_of_spec.
Qed.

(** The alerts of a frame that has the flag and delay columns: the
    delayed rows, each with its two alert cells, worst delay first; an
    empty frame when no row is delayed. *)
Lemma generate_alerts_filters_and_sorts (now : string) (eta_df : ref) (h : heap)
    (df : DataFrame) :
  h !! eta_df = Some df ->
  "is_delayed" ∈ df_columns df -> "delay_minutes" ∈ df_columns df ->
  exists alerts h' out,
    generate_alerts now eta_df h = (Ok alerts, h') /\
    h' !! alerts = Some out /\
    df_rows out ≡ₚ map (with_alert now) (delayed_rows df) /\
    StronglySorted by_delay_desc (df_rows out) /\
    (delayed_rows df = [] -> out = empty_DataFrame).
Proof.
  intros Hdf Hflag Hdelay.
  destruct (decide (delayed_rows df = [])) as [Hnone|Hsome].
  - eexists _, _, _. split; [exact (generate_alerts_none now eta_df h df Hdf Hflag Hnone)|].
    split; [apply lookup_created_2|]. rewrite Hnone. cbn.
    repeat split; [reflexivity | constructor].
  - pose proof (generate_alerts_some now eta_df h df Hdf Hflag Hdelay Hsome) as Hrun.
    cbv zeta in Hrun.
    eexists _, _, _. split; [exact Hrun|]. split; [apply lookup_created_2|].
    cbn [df_rows]. repeat split.
    + apply sort_by_delay_desc_perm.
    + apply sort_by_delay_desc_sorted.
    + intros Hnil. contradiction.
Qed.

(** C5, at the frame of a run without projections.  [calculate_all_etas]
    on no position returns the frame [pd.DataFrame([])], which has no
    column, and [generate_alerts] on that frame raises KeyError at
    [eta_df['is_delayed']] instead of returning an empty frame. *)
Theorem generate_alerts_on_empty_run_raises (geodesic : point -> point -> result Q)
    (fromisoformat : string -> result datetime) (random : nat -> Q)
    (config : ETAConfig) (k : nat) (stops : list Stop) (now : string) :
  calculate_all_etas geodesic fromisoformat random config k [] stops
  = Ok (pd_DataFrame [], k) /\
  generate_alerts now 0%nat [pd_DataFrame []] = (Raise KeyError, [pd_DataFrame []]).
Proof. split; reflexivity. Qed.

(** ** The example runs *)

(** The scenario of two legs of 5 km at 45 km/h with multiplier 1 and a
    service time of 5 minutes: 400 seconds after the observation, then 300
    and 400 seconds more. *)
Lemma sequential_chaining_witness :
  exists r1 r2,
    demo_project 0 demo_position demo_stops = Ok ([r1; r2], 2%nat) /\
    dt_us (calculated_eta r1) = 1704103200000000 + 400000000 /\
    dt_us (calculated_eta r2) = dt_us (calculated_eta r1) + 300000000 + 400000000.
Proof.
  assert (Hrun : exists r1 r2,
             demo_project 0 demo_position demo_stops = Ok ([r1; r2], 2%nat))
    by (vm_compute; eauto).
  destruct Hrun as (r1 & r2 & Hrun). exists r1, r2. split; [exact Hrun|].
  destruct (sequential_chaining demo_geodesic iso_fromisoformat demo_random eta_config
              0 2 demo_position demo_stops [r1; r2] Hrun) as (Hfirst & Hnext & _).
  split.
  - destruct (Hfirst _ r1 ltac:(vm_compute; reflexivity) eq_refl)
      as (t0 & dist & Ht0 & Hdist & ->).
    vm_compute in Ht0. injection Ht0 as <-.
    vm_compute in Hdist. injection Hdist as <-.
    vm_compute. reflexivity.
  - destruct (Hnext 0%nat _ _ r1 r2 ltac:(vm_compute; reflexivity)
                ltac:(vm_compute; reflexivity) eq_refl eq_refl)
      as (dist & Hdist & ->).
    vm_compute in Hdist. injection Hdist as <-.
    vm_compute. reflexivity.
Defined.

Lemma one_record_per_stop_in_sequence_order_witness :
  exists results k',
    demo_project 0 demo_position demo_stops = Ok (results, k') /\
    length results = 2%nat /\
    StronglySorted by_sequence results.
Proof.
  assert (Hrun : exists results k',
             demo_project 0 demo_position demo_stops = Ok (results, k'))
    by (vm_compute; eauto).
  destruct Hrun as (results & k' & Hrun). exists results, k'. split; [exact Hrun|].
  destruct (one_record_per_stop_in_sequence_order demo_geodesic iso_fromisoformat
              demo_random eta_config 0 k' demo_position demo_stops results Hrun)
    as (visited & _ & _ & Hlen & Hsorted).
  split; [exact Hlen | exact Hsorted].
Defined.



(** C3, counterexample.  The projection of the first driver ends normally;
    the timestamp of the second driver does not parse, and the run over
    both raises ValueError: the records of the first driver are lost. *)
Lemma unreadable_position_aborts_the_run :
  (exists results k',
     demo_project 0 demo_position demo_stops = Ok (results, k') /\
     length results = 2%nat) /\
  demo_project 2 unreadable_position demo_stops = Raise ValueError /\
  calculate_all_etas demo_geodesic iso_fromisoformat demo_random eta_config 0
    [demo_position; unreadable_position] demo_stops
  = Raise ValueError.
Proof.
  split; [eexists _, _; split; [vm_compute; reflexivity | reflexivity]|].
  split; vm_compute; reflexivity.
Qed.

(** C8, counterexample.  The stop is planned at 09:59:59 and the projected
    arrival is 10:00:00, strictly later, yet the delay of the record is 0.0
    and not positive. *)
Lemma one_second_late_has_zero_delay :
  exists r planned,
    demo_project 0 demo_position one_second_late = Ok ([r], 1%nat) /\
    parse_timestamp iso_fromisoformat (planned_eta r) = Ok planned /\
    dt_us planned < dt_us (calculated_eta r) /\
    ~ (0 < delay_minutes r)%Q.
Proof.
  eexists _, _. split; [vm_compute; reflexivity|].
  split; [vm_compute; reflexivity|].
  split; [vm_compute; reflexivity|].
  vm_compute. discriminate.
Qed.

Lemma delay_sign_of_rounded_value_witness :
  exists r planned,
    demo_project 0 demo_position one_second_late = Ok ([r], 1%nat) /\
    parse_timestamp iso_fromisoformat (planned_eta r) = Ok planned /\
    dt_sub (calculated_eta r) planned = Ok 1000000 /\
    (delay_minutes r == 0)%Q.
Proof.
  assert (Hrun : exists r, demo_project 0 demo_position one_second_late = Ok ([r], 1%nat))
    by (vm_compute; eauto).
  destruct Hrun as (r & Hrun).
  destruct (delay_sign_of_rounded_value demo_geodesic iso_fromisoformat demo_random
              eta_config 0 1 demo_position one_second_late [r] Hrun r ltac:(left))
    as (planned & delta & Hp & Hsub & _ & _ & Hzero & _).
  exists r, planned. split; [exact Hrun|]. split; [exact Hp|].
  unfold demo_project in Hrun. vm_compute in Hrun. injection Hrun as <-.
  vm_compute in Hp. injection Hp as <-.
  vm_compute in Hsub. injection Hsub as <-.
  split; [reflexivity|]. reflexivity.
Defined.

(** C9, counterexample.  The two lists hold the same three stops of the
    driver, two of them with sequence number 1, in different orders; the
    position, the configuration and the multipliers are the same.  The
    stop "stop_b" is visited first in one call and second in the other,
    and its projected arrival is five minutes later there. *)
Lemma same_stops_in_another_order_give_other_records :
  disordered_stops ≡ₚ reordered_stops /\
  exists results1 results2,
    demo_project 0 demo_position disordered_stops = Ok (results1, 3%nat) /\
    demo_project 0 demo_position reordered_stops = Ok (results2, 3%nat) /\
    map (fun r => (eta_stop_id r, dt_us (calculated_eta r))) results1
    = [("stop_b", 1704103200000000); ("stop_c", 1704103500000000);
       ("stop_a", 1704103800000000)] /\
    map (fun r => (eta_stop_id r, dt_us (calculated_eta r))) results2
    = [("stop_c", 1704103200000000); ("stop_b", 1704103500000000);
       ("stop_a", 1704103800000000)] /\
    results1 <> results2.
Proof.
  split.
  - unfold disordered_stops, reordered_stops. apply perm_skip, perm_swap.
  - eexists _, _. split; [vm_compute; reflexivity|].
    split; [vm_compute; reflexivity|].
    split; [reflexivity|]. split; [reflexivity|]. discriminate.
Qed.

Lemma driver_noninterference_witness :
  filter (fun s => stop_driver_id s = pos_driver_id demo_position) demo_stops
  ≡ₚ filter (fun s => stop_driver_id s = pos_driver_id demo_position) (rev demo_stops) /\
  records_of (demo_project 0 demo_position demo_stops)
  = records_of (demo_project 7 demo_position (rev demo_stops)).
Proof.
  assert (Hperm :
    filter (fun s => stop_driver_id s = pos_driver_id demo_position) demo_stops
    ≡ₚ filter (fun s => stop_driver_id s = pos_driver_id demo_position) (rev demo_stops)).
  { vm_compute. apply perm_swap. }
  split; [exact Hperm|].
  apply (driver_noninterference demo_geodesic iso_fromisoformat eta_config
           demo_random demo_random 0 7 demo_position demo_stops (rev demo_stops)).
  - right. split; [exact Hperm|]. apply (bool_decide_unpack _). vm_compute. exact I.
  - intros i _. reflexivity.
Defined.

Lemma severity_bucketing_witness :
  exists alerts h' out row,
    generate_alerts "2024-01-01T10:00:00" 0%nat [pd_DataFrame [half_hour_late]]
    = (Ok alerts, h') /\
    h' !! alerts = Some out /\
    row ∈ df_rows out /\ row_eta row = half_hour_late /\
    row_extra row !! "alert_severity" = Some "MEDIUM".
Proof.
  destruct (severity_bucketing "2024-01-01T10:00:00" 0%nat
              [pd_DataFrame [half_hour_late]] [half_hour_late] half_hour_late
              eq_refl ltac:(left) eq_refl)
    as (alerts & h' & out & row & severity & Hrun & Hout & Hrow & Heta & Hcell
        & _ & Hmedium & _).
  exists alerts, h', out, row. repeat split; try assumption.
  rewrite Hcell. f_equal. apply Hmedium. cbn [half_hour_late delay_minutes].
  split; lra.
Defined.

(** The delays of the boundaries: 30 is MEDIUM and 20 is LOW. *)
Example severity_at_the_thresholds :
  severity_of 30 = "MEDIUM" /\ severity_of 20 = "LOW" /\
  severity_of (3001 # 100) = "HIGH" /\ severity_of (2001 # 100) = "MEDIUM".
Proof. repeat split. Qed.

(** * Further properties of the engine *)

(** ** Multiplier and travel time *)

Lemma uniform_in_range (random : nat -> Q) (a b : Q) (k : nat) :
  (a <= b)%Q -> (0 <= random k)%Q -> (random k <= 1)%Q ->
  (a <= fst (uniform random a b k))%Q /\ (fst (uniform random a b k) <= b)%Q /\
  snd (uniform random a b k) = S k.
Proof.
  intros Hab H0 H1. unfold uniform. cbn [fst snd]. repeat split; nra.
Qed.

(** The multiplier of a leg lies in the configured range, for a range
    given in order and a random value in the unit interval, and one random
    value is drawn. *)
Theorem traffic_multiplier_in_range (random : nat -> Q) (config : ETAConfig) (k : nat) :
  (fst (TRAFFIC_MULTIPLIER_RANGE config) <= snd (TRAFFIC_MULTIPLIER_RANGE config))%Q ->
  (0 <= random k)%Q -> (random k <= 1)%Q ->
  (fst (TRAFFIC_MULTIPLIER_RANGE config)
   <= fst (generate_traffic_multiplier random config k))%Q /\
  (fst (generate_traffic_multiplier random config k)
   <= snd (TRAFFIC_MULTIPLIER_RANGE config))%Q /\
  snd (generate_traffic_multiplier random config k) = S k.
Proof.
  unfold generate_traffic_multiplier.
  destruct (TRAFFIC_MULTIPLIER_RANGE config) as [lo hi]. cbn [fst snd].
  apply uniform_in_range.
Qed.

Lemma traffic_multiplier_in_range_witness :
  (8 # 10 <= fst (generate_traffic_multiplier demo_random eta_config 0))%Q /\
  (fst (generate_traffic_multiplier demo_random eta_config 0) <= 15 # 10)%Q.
Proof.
  destruct (traffic_multiplier_in_range demo_random eta_config 0)
    as (Hlo & Hhi & _); [vm_compute; discriminate ..|].
  split; assumption.
Defined.

(** The travel time is never negative for a distance and a multiplier
    that are not negative, whatever the speed. *)
Theorem travel_time_nonnegative (distance_km avg_speed_kmh traffic_multiplier : Q) :
  (0 <= distance_km)%Q -> (0 <= traffic_multiplier)%Q ->
  (0 <= calculate_travel_time distance_km avg_speed_kmh traffic_multiplier)%Q.
Proof.
  intros Hd Ht. unfold calculate_travel_time.
  destruct (Qle_bool avg_speed_kmh 0) eqn:E; [apply Qle_refl|].
  assert (Hs : (0 < avg_speed_kmh)%Q).
  { apply Qnot_le_lt. rewrite <- Qle_bool_iff. congruence. }
  apply Qmult_le_0_compat; [|discriminate].
  apply Qmult_le_0_compat; [|exact Ht].
  apply Qle_shift_div_l; [exact Hs|]. now rewrite Qmult_0_l.
Qed.

Lemma travel_time_nonnegative_witness :
  (0 <= calculate_travel_time 5 45 1)%Q.
Proof. apply travel_time_nonnegative; discriminate. Defined.

(** For a positive speed the travel time grows with the distance. *)
Theorem travel_time_monotone_in_distance (d1 d2 avg_speed_kmh traffic_multiplier : Q) :
  (d1 <= d2)%Q -> (0 <= traffic_multiplier)%Q ->
  (calculate_travel_time d1 avg_speed_kmh traffic_multiplier
   <= calculate_travel_time d2 avg_speed_kmh traffic_multiplier)%Q.
Proof.
  intros Hd Ht. unfold calculate_travel_time.
  destruct (Qle_bool avg_speed_kmh 0) eqn:E; [apply Qle_refl|].
  assert (Hs : (0 < avg_speed_kmh)%Q).
  { apply Qnot_le_lt. rewrite <- Qle_bool_iff. congruence. }
  apply Qmult_le_compat_r; [|discriminate].
  apply Qmult_le_compat_r; [|exact Ht].
  unfold Qdiv. apply Qmult_le_compat_r; [exact Hd|].
  apply Qlt_le_weak, Qinv_lt_0_compat, Hs.
Qed.

Lemma travel_time_monotone_in_distance_witness :
  (calculate_travel_time 5 45 1 <= calculate_travel_time 10 45 1)%Q.
Proof. apply travel_time_monotone_in_distance; discriminate. Defined.

(** ** Rounding keeps the sign of what is not negative *)

Lemma round_half_even_nonnegative (q : Q) : (0 <= q)%Q -> 0 <= round_half_even q.
Proof.
  intros Hq. assert (Hn : 0 <= Qnum q).
  { unfold Qle in Hq. cbn in Hq. lia. }
  unfold round_half_even.
  pose proof (Z.div_pos (Qnum q) (Z.pos (Qden q)) Hn ltac:(lia)) as Hfl.
  repeat match goal with |- context [Z.ltb ?a ?b] => destruct (Z.ltb_spec a b) end;
    try destruct (Z.even _); lia.
Qed.

Lemma timedelta_minutes_nonnegative (m : Q) : (0 <= m)%Q -> 0 <= timedelta_minutes m.
Proof.
  intros Hm. apply round_half_even_nonnegative.
  apply Qmult_le_0_compat; [exact Hm | discriminate].
Qed.

(** ** The route of a driver *)

(** A list already in nondecreasing sequence order is left as it is. *)
Lemma sort_by_sequence_sorted_id (l : list Stop) :
  StronglySorted sequence_le l -> sort_by_sequence l = l.
Proof.
  induction 1 as [|x l Hs IH Hx]; [reflexivity|].
  cbn. rewrite IH. destruct l as [|y l]; [reflexivity|].
  cbn. apply Forall_cons in Hx as [Hxy _]. unfold sequence_le in Hxy.
  destruct (Z.leb_spec (stop_sequence x) (stop_sequence y)); [reflexivity | lia].
Qed.

(** When the stops of a driver come in nondecreasing sequence order, the
    route is these stops in the order of the input. *)
Theorem ordered_input_is_the_route (d : string) (stops : list Stop) :
  StronglySorted sequence_le (filter (fun s => stop_driver_id s = d) stops) ->
  driver_stops_of d stops = filter (fun s => stop_driver_id s = d) stops.
Proof. intros H. unfold driver_stops_of. now apply sort_by_sequence_sorted_id. Qed.

Lemma ordered_input_is_the_route_witness :
  driver_stops_of "driver_001" (sort_by_sequence demo_stops)
  = filter (fun s => stop_driver_id s = "driver_001") (sort_by_sequence demo_stops).
Proof.
  apply ordered_input_is_the_route.
  vm_compute. repeat constructor; vm_compute; discriminate.
Defined.

(** ** What every record of a call carries *)

Section ProjectorRecords.
Variable geodesic : point -> point -> result Q.
Variable fromisoformat : string -> result datetime.
Variable random : nat -> Q.
Variable config : ETAConfig.

Abbreviation run_body := (loop_body geodesic fromisoformat random config).
Abbreviation run_project :=
  (calculate_eta_for_driver geodesic fromisoformat random config).

(** An invariant of the records kept by every iteration holds of the
    records of the loop. *)
Lemma loop_records_invariant (d : string) (v : Q) (l : list Stop)
    (st st' : loop_state) (P : loop_state -> ETAResult -> Prop)
    (I : loop_state -> Prop) :
  (forall s x s' r, I s -> run_body d v s x = Ok s' ->
                    eta_results s' = eta_results s ++ [r] -> I s' /\ P s r) ->
  for_each (run_body d v) st l = Ok st' ->
  I st -> Forall (fun r => exists s, I s /\ P s r) (eta_results st) ->
  I st' /\ Forall (fun r => exists s, I s /\ P s r) (eta_results st').
Proof.
  intros Hstep Hrun HI Hall.
  refine (for_each_invariant _
            (fun s => I s /\ Forall (fun r => exists s0, I s0 /\ P s0 r) (eta_results s))
            _ _ _ _ (conj HI Hall) Hrun).
  intros s x s' [HIs Hs] Hb.
  destruct (loop_body_step _ _ _ _ _ _ _ _ _ Hb) as (r & Hr & _).
  destruct (Hstep s x s' r HIs Hb Hr) as [HI' HP].
  split; [exact HI'|]. rewrite Hr. apply Forall_app. split; [exact Hs|].
  constructor; [|constructor]. eauto.
Qed.

(** Every record of a call carries the driver's id, the speed the
    configuration gives the driver, or 45 when it gives none, and the
    configured service time; its projected arrival has the UTC offset of
    the driver's timestamp, and is naive when that one is. *)
Theorem records_carry_the_driver_settings (k k' : nat) (position : DriverPosition)
    (stops : list Stop) (results : list ETAResult) :
  run_project k position stops = Ok (results, k') ->
  exists t0,
    parse_timestamp fromisoformat (pos_timestamp position) = Ok t0 /\
    forall r, r ∈ results ->
      driver_id r = pos_driver_id position /\
      avg_speed_kmh r = default 45%Q (DRIVER_SPEEDS config !! pos_driver_id position) /\
      service_time_min r = STOP_SERVICE_TIME config /\
      dt_utcoffset (calculated_eta r) = dt_utcoffset t0.
Proof.
  unfold calculate_eta_for_driver. intros H.
  apply bind_Ok in H as (t0 & Ht0 & H).
  apply bind_Ok in H as (st' & Hrun & H). injection H as <- <-.
  exists t0. split; [exact Ht0|].
  set (d := pos_driver_id position) in *.
  set (v := default 45%Q (DRIVER_SPEEDS config !! d)) in *.
  assert (Hall : True /\
            Forall (fun r => exists s : loop_state,
                      dt_utcoffset (cumulative_time s) = dt_utcoffset t0 /\
                      (driver_id r = d /\ avg_speed_kmh r = v /\
                       service_time_min r = STOP_SERVICE_TIME config /\
                       dt_utcoffset (calculated_eta r) = dt_utcoffset t0))
                   (eta_results st')).
  { split; [exact I|].
    refine (proj2 (loop_records_invariant d v _ _ _
              (fun _ r => driver_id r = d /\ avg_speed_kmh r = v /\
                          service_time_min r = STOP_SERVICE_TIME config /\
                          dt_utcoffset (calculated_eta r) = dt_utcoffset t0)
              (fun s => dt_utcoffset (cumulative_time s) = dt_utcoffset t0)
              _ Hrun eq_refl (Forall_nil_2 _))).
    intros s x s' r HI Hb Hr.
    apply loop_body_inv in Hb as (dist & planned & delta & _ & _ & _ & ->).
    cbn [eta_results] in Hr. apply app_inv_head in Hr. injection Hr as <-.
    cbn. auto. }
  destruct Hall as [_ Hall].
  intros r Hr. rewrite Forall_forall in Hall.
  destruct (Hall r Hr) as (_ & _ & HP). exact HP.
Qed.

(** The delayed flag of a record is set exactly when the difference
    between projected and planned arrival, before any rounding, exceeds the
    configured threshold. *)
Theorem delayed_flag_uses_the_exact_delay (k k' : nat) (position : DriverPosition)
    (stops : list Stop) (results : list ETAResult) :
  run_project k position stops = Ok (results, k') ->
  forall r, r ∈ results ->
  exists planned delta,
    parse_timestamp fromisoformat (planned_eta r) = Ok planned /\
    dt_sub (calculated_eta r) planned = Ok delta /\
    (is_delayed r = true <-> (DELAY_THRESHOLD config < total_seconds delta / 60)%Q).
Proof.
  unfold calculate_eta_for_driver. intros H r Hr.
  apply bind_Ok in H as (t0 & _ & H).
  apply bind_Ok in H as (st' & Hrun & H). injection H as <- <-.
  revert r Hr. apply Forall_forall.
  refine (loop_delays _ _ _ _ _ _ _ _ _ _ _ Hrun _); [|constructor].
  intros r planned delta Hp Hsub _ Hflag.
  exists planned, delta. rewrite Hflag. repeat split; try assumption; apply Qgtb_iff.
Qed.

(** A call draws one random value for each stop of the driver, and
    returns as many records. *)
Theorem one_random_value_per_stop (k k' : nat) (position : DriverPosition)
    (stops : list Stop) (results : list ETAResult) :
  run_project k position stops = Ok (results, k') ->
  length results
  = length (filter (fun s => stop_driver_id s = pos_driver_id position) stops) /\
  k' = (k + length results)%nat.
Proof.
  unfold calculate_eta_for_driver. intros H.
  apply bind_Ok in H as (t0 & _ & H).
  apply bind_Ok in H as (st' & Hrun & H). injection H as <- <-.
  apply loop_counts in Hrun as (rs & Hrs & Hlen & Hk). cbn in Hrs, Hk. rewrite Hrs.
  split; [|lia].
  rewrite Hlen. unfold driver_stops_of. apply sort_by_sequence_length.
Qed.

End ProjectorRecords.

Lemma travel_time_nonnegative_general (d v t : Q) :
  (0 <= d)%Q -> (0 <= t)%Q -> (0 <= calculate_travel_time d v t)%Q.
Proof.
  intros Hd Ht. unfold calculate_travel_time.
  destruct (Qle_bool v 0) eqn:E; [apply Qle_refl|].
  assert (Hs : (0 < v)%Q).
  { apply Qnot_le_lt. rewrite <- Qle_bool_iff. congruence. }
  apply Qmult_le_0_compat; [|discriminate].
  apply Qmult_le_0_compat; [|exact Ht].
  apply Qle_shift_div_l; [exact Hs|]. now rewrite Qmult_0_l.
Qed.

(** ** Arrivals along the route *)

Section ProjectorMonotone.
Variable geodesic : point -> point -> result Q.
Variable fromisoformat : string -> result datetime.
Variable random : nat -> Q.
Variable config : ETAConfig.

Hypothesis distances_nonnegative :
  forall p q dist, geodesic p q = Ok dist -> (0 <= dist)%Q.
Hypothesis multipliers_nonnegative :
  forall i, (0 <= leg_multiplier random config i)%Q.

Lemma arrival_after_cursor (d : string) (v : Q) (st0 st' : loop_state)
    (l : list Stop) (i : nat) (r : ETAResult) :
  for_each (loop_body geodesic fromisoformat random config d v) st0 l = Ok st' ->
  eta_results st0 = [] ->
  eta_results st' !! i = Some r ->
  exists sti sti',
    for_each (loop_body geodesic fromisoformat random config d v) st0 (take i l) = Ok sti /\
    for_each (loop_body geodesic fromisoformat random config d v) st0 (take (S i) l)
    = Ok sti' /\
    dt_us (cumulative_time sti) <= dt_us (calculated_eta r) /\
    cumulative_time sti'
    = dt_add (calculated_eta r) (timedelta_minutes (STOP_SERVICE_TIME config)).
Proof.
  intros Hrun Hnil Hr.
  destruct (loop_counts _ _ _ _ _ _ _ _ _ Hrun) as (rs & Hrs & Hlen & _).
  rewrite Hnil in Hrs. cbn in Hrs.
  assert (Hi : (i < length l)%nat).
  { rewrite <- Hlen, <- Hrs. eapply lookup_lt_Some. exact Hr. }
  apply lookup_lt_is_Some in Hi as [s Hs].
  assert (Hr' : eta_results st' !! (length (eta_results st0) + i)%nat = Some r)
    by (rewrite Hnil; exact Hr).
  destruct (iteration_record _ _ _ _ _ _ _ _ _ _ _ _ Hrun Hs Hr')
    as (sti & sti' & dist & Hpre & Hpre' & Hd & Harr & _ & Hcur).
  exists sti, sti'. repeat split; try assumption.
  rewrite Harr. cbn [dt_add dt_us].
  pose proof (timedelta_minutes_nonnegative
                (calculate_travel_time dist v
                   (leg_multiplier random config (rng_calls st0 + i)))) as Htd.
  specialize (Htd (travel_time_nonnegative_general dist v _
                     (distances_nonnegative _ _ _ Hd) (multipliers_nonnegative _))).
  lia.
Qed.

(** With distances, multipliers and a service time that are not negative,
    the first projected arrival is not before the driver's observation
    time, and every later one is not before the arrival at the stop before
    it plus the service time. *)
Theorem arrivals_never_go_back (k k' : nat) (position : DriverPosition)
    (stops : list Stop) (results : list ETAResult) :
  (0 <= STOP_SERVICE_TIME config)%Q ->
  calculate_eta_for_driver geodesic fromisoformat random config k position stops
  = Ok (results, k') ->
  (forall r, results !! 0%nat = Some r ->
     exists t0, parse_timestamp fromisoformat (pos_timestamp position) = Ok t0 /\
                dt_us t0 <= dt_us (calculated_eta r)) /\
  (forall i r_prev r,
     results !! i = Some r_prev -> results !! S i = Some r ->
     dt_us (calculated_eta r_prev) + timedelta_minutes (STOP_SERVICE_TIME config)
     <= dt_us (calculated_eta r) /\
     dt_us (calculated_eta r_prev) <= dt_us (calculated_eta r)).
Proof.
  intros Hservice. unfold calculate_eta_for_driver. intros H.
  apply bind_Ok in H as (t0 & Ht0 & H).
  apply bind_Ok in H as (st' & Hrun & H). injection H as <- <-.
  split.
  - intros r Hr.
    destruct (arrival_after_cursor _ _ _ _ _ _ _ Hrun eq_refl Hr)
      as (sti & _ & Hpre & _ & Hle & _).
    cbn in Hpre. injection Hpre as <-. exists t0. split; [exact Ht0 | exact Hle].
  - intros i r_prev r Hrp Hr.
    destruct (arrival_after_cursor _ _ _ _ _ _ _ Hrun eq_refl Hrp)
      as (_ & sti' & _ & Hpre' & _ & Hcur).
    destruct (arrival_after_cursor _ _ _ _ _ _ _ Hrun eq_refl Hr)
      as (sti & _ & Hpre & _ & Hle & _).
    rewrite Hpre' in Hpre. injection Hpre as <-.
    rewrite Hcur in Hle. cbn [dt_add dt_us] in Hle.
    pose proof (timedelta_minutes_nonnegative _ Hservice). lia.
Qed.

End ProjectorMonotone.

(** ** Naive and aware timestamps *)

Section ProjectorKinds.
Variable geodesic : point -> point -> result Q.
Variable fromisoformat : string -> result datetime.
Variable random : nat -> Q.
Variable config : ETAConfig.

Lemma dt_sub_other_kind (a b : datetime) :
  ~ (dt_utcoffset b = None <-> dt_utcoffset a = None) -> dt_sub a b = Raise TypeError.
Proof.
  unfold dt_sub. destruct (dt_utcoffset a), (dt_utcoffset b); intros H;
    try reflexivity; exfalso; apply H; split; intros; congruence.
Qed.

(** In a loop that ends normally every planned time is of the kind of
    the cursor: both naive or both aware. *)
Lemma loop_keeps_one_kind (d : string) (v : Q) (l : list Stop) (st st' : loop_state) :
  for_each (loop_body geodesic fromisoformat random config d v) st l = Ok st' ->
  forall s, s ∈ l ->
    exists planned,
      parse_timestamp fromisoformat (stop_planned_eta s) = Ok planned /\
      (dt_utcoffset planned = None <-> dt_utcoffset (cumulative_time st) = None).
Proof.
  revert st. induction l as [|x l IH]; intros st Hrun s Hs; [inversion Hs|].
  cbn [for_each] in Hrun. apply bind_Ok in Hrun as (st1 & Hb & Hrun).
  apply loop_body_inv in Hb as (dist & planned & delta & _ & Hp & Hsub & ->).
  cbv zeta in Hsub.
  apply elem_of_cons in Hs as [->|Hs].
  - exists planned. split; [exact Hp|].
    destruct (decide (dt_utcoffset planned = None
                      <-> dt_utcoffset (cumulative_time st) = None)) as [Hsame|Hother];
      [exact Hsame|].
    rewrite dt_sub_other_kind in Hsub by exact Hother. discriminate.
  - destruct (IH _ Hrun s Hs) as (planned' & Hp' & Hkind). exists planned'.
    split; [exact Hp' | exact Hkind].
Qed.

(** A call never returns when a stop of the driver has a planned time that
    is aware while the driver's timestamp is naive, or naive while it is
    aware: the subtraction of the two kinds raises, if nothing raised
    before it. *)
Theorem mixed_timestamp_kinds_never_return (k : nat) (position : DriverPosition)
    (stops : list Stop) (t0 p : datetime) (s : Stop) :
  parse_timestamp fromisoformat (pos_timestamp position) = Ok t0 ->
  s ∈ stops -> stop_driver_id s = pos_driver_id position ->
  parse_timestamp fromisoformat (stop_planned_eta s) = Ok p ->
  ~ (dt_utcoffset p = None <-> dt_utcoffset t0 = None) ->
  forall results k',
    calculate_eta_for_driver geodesic fromisoformat random config k position stops
    <> Ok (results, k').
Proof.
  intros Ht0 Hs Hd Hp Hkind results k' H.
  unfold calculate_eta_for_driver in H. rewrite Ht0 in H. cbn in H.
  apply bind_Ok in H as (st' & Hrun & _).
  destruct (loop_keeps_one_kind _ _ _ _ _ Hrun s) as (planned & Hplanned & Hsame).
  - apply (elem_of_driver_stops_of fromisoformat). auto.
  - rewrite Hp in Hplanned. injection Hplanned as <-. cbn in Hsame. contradiction.
Qed.

End ProjectorKinds.

(** ** The frame of a run over all drivers *)

Lemma imap_row_labels (f : nat -> nat) (records : list ETAResult) :
  map row_label (imap (fun i r => mk_row (f i) r ∅) records)
  = map f (seq 0 (length records)).
Proof.
  revert f. induction records as [|r records IH]; intros f; [reflexivity|].
  cbn. f_equal. rewrite <- seq_shift, map_map. exact (IH (f ∘ S)).
Qed.

Lemma imap_row_etas (f : nat -> nat) (records : list ETAResult) :
  map row_eta (imap (fun i r => mk_row (f i) r ∅) records) = records.
Proof.
  revert f. induction records as [|r records IH]; intros f; [reflexivity|].
  cbn. f_equal. exact (IH (f ∘ S)).
Qed.

Lemma pd_DataFrame_labels (records : list ETAResult) :
  map row_label (df_rows (pd_DataFrame records)) = seq 0 (length records).
Proof.
  cbn. rewrite (imap_row_labels (fun i => i)). apply map_id.
Qed.

Lemma pd_DataFrame_etas (records : list ETAResult) :
  map row_eta (df_rows (pd_DataFrame records)) = records.
Proof. cbn. apply (imap_row_etas (fun i => i)). Qed.

Section AllDriversCounts.
Variable geodesic : point -> point -> result Q.
Variable fromisoformat : string -> result datetime.
Variable random : nat -> Q.
Variable config : ETAConfig.

Abbreviation stops_of stops p :=
  (filter (fun s : Stop => stop_driver_id s = pos_driver_id p) stops).

Lemma project_counts (k k' : nat) (p : DriverPosition) (stops : list Stop)
    (rs : list ETAResult) :
  calculate_eta_for_driver geodesic fromisoformat random config k p stops = Ok (rs, k') ->
  length rs = length (stops_of stops p) /\ k' = (k + length rs)%nat /\
  Forall (fun r => driver_id r = pos_driver_id p) rs.
Proof.
  intros H.
  pose proof (calculate_eta_for_driver_records _ _ _ _ _ _ _ _ _ H) as Hall.
  unfold calculate_eta_for_driver in H.
  apply bind_Ok in H as (t0 & _ & H).
  apply bind_Ok in H as (st' & Hrun & H). injection H as <- <-.
  apply loop_counts in Hrun as (rs & Hrs & Hlen & Hk). cbn in Hrs, Hk. rewrite Hrs in *.
  split; [|split; [lia|]].
  - rewrite Hlen. unfold driver_stops_of. apply sort_by_sequence_length.
  - clear -Hall. induction Hall as [|s r l rs' Hsr _ IH]; constructor; [|exact IH].
    now destruct Hsr.
Qed.

Lemma all_drivers_counts (stops : list Stop) (positions : list DriverPosition)
    (acc acc' : list ETAResult * nat) :
  for_each
    (fun (acc : list ETAResult * nat) position =>
       '(driver_etas, k') ← calculate_eta_for_driver geodesic fromisoformat random config
                              (snd acc) position stops;
       Ok (fst acc ++ driver_etas, k'))
    acc positions = Ok acc' ->
  exists new,
    fst acc' = fst acc ++ new /\
    length new = sum_list (map (fun p => length (stops_of stops p)) positions) /\
    snd acc' = (snd acc + length new)%nat /\
    Forall (fun r => exists p, p ∈ positions /\ driver_id r = pos_driver_id p) new.
Proof.
  revert acc. induction positions as [|p positions IH]; intros acc H; cbn in H.
  - injection H as <-. exists []. rewrite app_nil_r. cbn. auto with lia.
  - apply bind_Ok in H as (acc1 & Hb & H).
    apply bind_Ok in Hb as ([rs k1] & Hp & Hb). injection Hb as <-.
    apply project_counts in Hp as (Hlen & Hk & Hids).
    apply IH in H as (new & Hnew & Hsum & Hk' & Hall). cbn in Hnew, Hk'.
    exists (rs ++ new). rewrite Hnew, app_assoc. split; [reflexivity|].
    rewrite length_app. cbn. repeat split; try lia.
    apply Forall_app. split.
    + eapply Forall_impl; [exact Hids|]. intros r Hr. exists p. split; [left | exact Hr].
    + eapply Forall_impl; [exact Hall|]. intros r (q & Hq & Hr). exists q.
      split; [now right | exact Hr].
Qed.

(** The frame of a run that ends normally has, for each position, one row
    per stop that carries the id of its driver; a position listed twice
    counts twice, and a stop whose driver has no position gives no row.
    The rows are labelled 0, 1, 2, ... and one random value was drawn per
    row. *)
Theorem run_has_one_row_per_positioned_stop (k k' : nat)
    (positions : list DriverPosition) (stops : list Stop) (df : DataFrame) :
  calculate_all_etas geodesic fromisoformat random config k positions stops
  = Ok (df, k') ->
  length (df_rows df)
  = sum_list (map (fun p => length (stops_of stops p)) positions) /\
  k' = (k + length (df_rows df))%nat /\
  map row_label (df_rows df) = seq 0 (length (df_rows df)) /\
  forall row, row ∈ df_rows df ->
    exists p, p ∈ positions /\ driver_id (row_eta row) = pos_driver_id p.
Proof.
  unfold calculate_all_etas. intros H.
  apply bind_Ok in H as (acc' & Hrun & H). injection H as <- <-.
  apply all_drivers_counts in Hrun as (new & Hnew & Hsum & Hk & Hall).
  cbn in Hnew, Hk. rewrite Hnew.
  assert (Hlen : length (df_rows (pd_DataFrame new)) = length new).
  { rewrite <- (pd_DataFrame_etas new) at 2. now rewrite length_map. }
  rewrite Hlen. repeat split; try assumption.
  - apply pd_DataFrame_labels.
  - intros row Hrow. rewrite Forall_forall in Hall. apply Hall.
    rewrite <- (pd_DataFrame_etas new). apply list_elem_of_fmap. eauto.
Qed.

End AllDriversCounts.

(** ** The frame of alerts *)

Lemma pd_DataFrame_rows_lookup (records : list ETAResult) (row : Row) :
  row ∈ df_rows (pd_DataFrame records) ->
  records !! row_label row = Some (row_eta row) /\ row_extra row = ∅.
Proof.
  intros Hrow. apply list_elem_of_lookup in Hrow as (i & Hi).
  cbn in Hi. rewrite list_lookup_imap in Hi.
  destruct (records !! i) as [r|] eqn:Hr; [|discriminate].
  injection Hi as <-. cbn. auto.
Qed.

Lemma delayed_rows_etas (records : list ETAResult) :
  map row_eta (delayed_rows (pd_DataFrame records))
  = filter (fun r => is_delayed r = true) records.
Proof.
  unfold delayed_rows.
  rewrite <- (pd_DataFrame_etas records) at 2.
  generalize (df_rows (pd_DataFrame records)). intros rows.
  induction rows as [|row rows IH]; [reflexivity|].
  cbn [map]. rewrite !filter_cons. case_decide; cbn [map]; now rewrite IH.
Qed.

(** On a frame of projections with at least one record, the call returns
    a frame with one row per delayed record.  When none is delayed the
    frame returned has no column at all; otherwise its columns are those of
    the projections followed by alert_timestamp and alert_severity, every
    row carries the one timestamp of the call, and a row keeps the index
    label it had in the input: the index is not renumbered. *)
Theorem alerts_frame_shape (now : string) (eta_df : ref) (h : heap)
    (records : list ETAResult) :
  h !! eta_df = Some (pd_DataFrame records) -> records <> [] ->
  exists alerts h' out,
    generate_alerts now eta_df h = (Ok alerts, h') /\
    h' !! alerts = Some out /\
    length (df_rows out) = length (filter (fun r => is_delayed r = true) records) /\
    (filter (fun r => is_delayed r = true) records = [] -> df_columns out = []) /\
    (filter (fun r => is_delayed r = true) records <> [] ->
     df_columns out = eta_columns ++ ["alert_timestamp"; "alert_severity"]) /\
    forall row, row ∈ df_rows out ->
      row_extra row !! "alert_timestamp" = Some now /\
      is_delayed (row_eta row) = true /\
      records !! row_label row = Some (row_eta row).
Proof.
  intros Hdf Hne.
  pose proof (pd_DataFrame_columns records Hne) as Hcols.
  pose proof (delayed_rows_etas records) as Hetas.
  destruct (decide (delayed_rows (pd_DataFrame records) = [])) as [Hnone|Hsome].
  - pose proof (generate_alerts_none now eta_df h _ Hdf
                  ltac:(rewrite Hcols; exact is_delayed_column) Hnone) as Hrun.
    rewrite Hnone in Hetas. cbn in Hetas.
    eexists _, _, _. split; [exact Hrun|]. split; [apply lookup_created_2|].
    rewrite <- Hetas. cbn. split; [reflexivity|]. split; [reflexivity|].
    split; [congruence|]. intros row Hrow. inversion Hrow.
  - pose proof (generate_alerts_some now eta_df h _ Hdf
                  ltac:(rewrite Hcols; exact is_delayed_column)
                  ltac:(rewrite Hcols; exact delay_minutes_column) Hsome) as Hrun.
    cbv zeta in Hrun. rewrite Hcols in Hrun.
    eexists _, _, _. split; [exact Hrun|]. split; [apply lookup_created_2|].
    cbn [df_rows df_columns]. split; [|split; [|split]].
    + rewrite (Permutation_length (sort_by_delay_desc_perm _)), length_map.
      rewrite <- Hetas. now rewrite length_map.
    + intros Hnil. rewrite Hnil in Hetas.
      apply (f_equal length) in Hetas. rewrite length_map in Hetas. cbn in Hetas.
      apply length_zero_iff_nil in Hetas. contradiction.
    + intros _. reflexivity.
    + intros row Hrow. rewrite sort_by_delay_desc_perm in Hrow.
      apply list_elem_of_fmap in Hrow as (row0 & -> & Hrow0).
      unfold delayed_rows in Hrow0. apply list_elem_of_filter in Hrow0 as [Hd Hin].
      cbn [with_alert row_extra row_eta row_label].
      split; [|split; [exact Hd|]].
      * rewrite lookup_insert_ne by discriminate. apply lookup_insert_eq.
      * apply pd_DataFrame_rows_lookup, Hin.
Qed.

Lemma alerts_frame_shape_witness :
  exists alerts h' out,
    generate_alerts "2024-01-01T10:00:00" 0%nat [pd_DataFrame [half_hour_late]]
    = (Ok alerts, h') /\
    h' !! alerts = Some out /\
    length (df_rows out) = 1%nat /\
    df_columns out = eta_columns ++ ["alert_timestamp"; "alert_severity"].
Proof.
  destruct (alerts_frame_shape "2024-01-01T10:00:00" 0%nat
              [pd_DataFrame [half_hour_late]] [half_hour_late] eq_refl
              ltac:(discriminate))
    as (alerts & h' & out & Hrun & Hout & Hlen & _ & Hcols & _).
  exists alerts, h', out. repeat split; try assumption.
  apply Hcols. discriminate.
Defined.

Lemma generate_alerts_filters_and_sorts_witness :
  exists alerts h' out,
    generate_alerts "2024-01-01T10:00:00" 0%nat [pd_DataFrame [half_hour_late]]
    = (Ok alerts, h') /\
    h' !! alerts = Some out /\
    StronglySorted by_delay_desc (df_rows out) /\
    length (df_rows out) = 1%nat.
Proof.
  destruct (generate_alerts_filters_and_sorts "2024-01-01T10:00:00" 0%nat
              [pd_DataFrame [half_hour_late]] (pd_DataFrame [half_hour_late]) eq_refl
              is_delayed_column delay_minutes_column)
    as (alerts & h' & out & Hrun & Hout & Hperm & Hsorted & _).
  exists alerts, h', out. repeat split; try assumption.
  now rewrite (Permutation_length Hperm).
Defined.

(** ** More example runs *)

Lemma demo_run :
  exists r1 r2, demo_project 0 demo_position demo_stops = Ok ([r1; r2], 2%nat).
Proof. vm_compute. eauto. Qed.

Lemma records_carry_the_driver_settings_witness :
  exists r1 r2,
    demo_project 0 demo_position demo_stops = Ok ([r1; r2], 2%nat) /\
    avg_speed_kmh r1 = 45%Q /\ service_time_min r2 = 5%Q /\
    dt_utcoffset (calculated_eta r2) = None.
Proof.
  destruct demo_run as (r1 & r2 & Hrun). exists r1, r2. split; [exact Hrun|].
  destruct (records_carry_the_driver_settings demo_geodesic iso_fromisoformat
              demo_random eta_config 0 2 demo_position demo_stops [r1; r2] Hrun)
    as (t0 & Ht0 & Hall).
  vm_compute in Ht0. injection Ht0 as <-.
  destruct (Hall r1 ltac:(left)) as (_ & Hv & _).
  destruct (Hall r2 ltac:(right; left)) as (_ & _ & Hs & Htz).
  repeat split; assumption.
Defined.

Lemma delayed_flag_uses_the_exact_delay_witness :
  exists r planned delta,
    demo_project 0 demo_position one_second_late = Ok ([r], 1%nat) /\
    parse_timestamp iso_fromisoformat (planned_eta r) = Ok planned /\
    dt_sub (calculated_eta r) planned = Ok delta /\
    (is_delayed r = true <-> (15 < total_seconds delta / 60)%Q).
Proof.
  assert (Hrun : exists r, demo_project 0 demo_position one_second_late = Ok ([r], 1%nat))
    by (vm_compute; eauto).
  destruct Hrun as (r & Hrun).
  destruct (delayed_flag_uses_the_exact_delay demo_geodesic iso_fromisoformat
              demo_random eta_config 0 1 demo_position one_second_late [r] Hrun r
              ltac:(left))
    as (planned & delta & Hp & Hsub & Hflag).
  exists r, planned, delta. repeat split; try assumption; apply Hflag.
Defined.

Lemma one_random_value_per_stop_witness :
  exists results k',
    demo_project 4 demo_position demo_stops = Ok (results, k') /\
    length results = 2%nat /\ k' = 6%nat.
Proof.
  assert (Hrun : exists results k', demo_project 4 demo_position demo_stops = Ok (results, k'))
    by (vm_compute; eauto).
  destruct Hrun as (results & k' & Hrun). exists results, k'. split; [exact Hrun|].
  destruct (one_random_value_per_stop demo_geodesic iso_fromisoformat demo_random
              eta_config 4 k' demo_position demo_stops results Hrun) as [Hlen Hk].
  change (length results = 2%nat) in Hlen. split; [exact Hlen | lia].
Defined.

Lemma demo_distances_nonnegative (p q : point) (dist : Q) :
  demo_geodesic p q = Ok dist -> (0 <= dist)%Q.
Proof.
  unfold demo_geodesic, table_geodesic.
  destruct (valid_latitude p && valid_latitude q); [|discriminate].
  intros [= <-]. destruct (same_point p q); [discriminate|].
  cbn [listed_distance].
  repeat (match goal with |- context [if ?c then _ else _] => destruct c end);
    discriminate.
Qed.

Lemma arrivals_never_go_back_witness :
  exists r1 r2,
    demo_project 0 demo_position demo_stops = Ok ([r1; r2], 2%nat) /\
    dt_us (calculated_eta r1) + 300000000 <= dt_us (calculated_eta r2).
Proof.
  destruct demo_run as (r1 & r2 & Hrun). exists r1, r2. split; [exact Hrun|].
  destruct (arrivals_never_go_back demo_geodesic iso_fromisoformat demo_random eta_config
              demo_distances_nonnegative ltac:(intros i; vm_compute; discriminate)
              0 2 demo_position demo_stops [r1; r2] ltac:(vm_compute; discriminate) Hrun)
    as (_ & Hnext).
  destruct (Hnext 0%nat r1 r2 eq_refl eq_refl) as [Hle _]. exact Hle.
Defined.

(** The driver's timestamp is in UTC and the planned time of the stop is
    naive: the call does not return. *)
Lemma mixed_timestamp_kinds_never_return_witness :
  match demo_project 0 utc_position one_second_late with
  | Ok _ => False
  | Raise _ => True
  end.
Proof.
  destruct (demo_project 0 utc_position one_second_late) as [[results k']|e] eqn:Hrun;
    [|exact I].
  apply (mixed_timestamp_kinds_never_return demo_geodesic iso_fromisoformat demo_random
           eta_config 0 utc_position one_second_late
           (mk_datetime 1704103200000000 (Some 0))
           (mk_datetime 1704103199000000 None)
           (stop_at_depot "stop_a" 1 "2024-01-01T09:59:59")
           ltac:(vm_compute; reflexivity) ltac:(left) eq_refl
           ltac:(vm_compute; reflexivity)
           ltac:(cbn; intros [H _]; specialize (H eq_refl); discriminate)
           results k').
  exact Hrun.
Defined.

Lemma run_has_one_row_per_positioned_stop_witness :
  exists df k',
    calculate_all_etas demo_geodesic iso_fromisoformat demo_random eta_config 0
      [demo_position; demo_position] demo_stops = Ok (df, k') /\
    length (df_rows df) = 4%nat /\ k' = 4%nat /\
    map row_label (df_rows df) = [0; 1; 2; 3]%nat.
Proof.
  assert (Hrun : exists df k',
             calculate_all_etas demo_geodesic iso_fromisoformat demo_random eta_config 0
               [demo_position; demo_position] demo_stops = Ok (df, k'))
    by (vm_compute; eauto).
  destruct Hrun as (df & k' & Hrun). exists df, k'. split; [exact Hrun|].
  destruct (run_has_one_row_per_positioned_stop demo_geodesic iso_fromisoformat
              demo_random eta_config 0 k' [demo_position; demo_position] demo_stops df Hrun)
    as (Hlen & Hk & Hlabels & _).
  change (length (df_rows df) = 4%nat) in Hlen.
  rewrite Hlabels, Hk, Hlen. repeat split.
Defined.

(** * DelayedETAEngine *)

(** The projector of [ETAEngine] is the one with the method of
    [ETAEngine] for parameter. *)
Lemma calculate_eta_for_driver_with_base (geodesic : point -> point -> result Q)
    (fromisoformat : string -> result datetime) (random : nat -> Q)
    (config : ETAConfig) (k : nat) (position : DriverPosition) (stops : list Stop) :
  calculate_eta_for_driver geodesic fromisoformat random config k position stops
  = calculate_eta_for_driver_with geodesic fromisoformat config
      (generate_traffic_multiplier random config) k position stops.
Proof. reflexivity. Qed.

Lemma round_half_even_lower (n : Z) (q : Q) :
  (inject_Z n <= q)%Q -> n <= round_half_even q.
Proof.
  unfold Qle. cbn [inject_Z Qnum Qden]. intros Hq.
  unfold round_half_even.
  pose proof (Z.div_mod (Qnum q) (Z.pos (Qden q)) ltac:(lia)) as Hdm.
  pose proof (Z.mod_pos_bound (Qnum q) (Z.pos (Qden q)) ltac:(lia)) as Hm.
  assert (Hfl : n <= Qnum q / Z.pos (Qden q)) by (apply Z.div_le_lower_bound; lia).
  repeat match goal with |- context [Z.ltb ?a ?b] => destruct (Z.ltb_spec a b) end;
    try destruct (Z.even _); lia.
Qed.

Lemma round_half_even_upper (n : Z) (q : Q) :
  (q <= inject_Z n)%Q -> round_half_even q <= n.
Proof.
  unfold Qle. cbn [inject_Z Qnum Qden]. intros Hq.
  unfold round_half_even.
  pose proof (Z.div_mod (Qnum q) (Z.pos (Qden q)) ltac:(lia)) as Hdm.
  pose proof (Z.mod_pos_bound (Qnum q) (Z.pos (Qden q)) ltac:(lia)) as Hm.
  set (d := Z.pos (Qden q)) in *. set (fl := Qnum q / d) in *.
  set (m := Qnum q mod d) in *.
  assert (Hd : 0 < d) by (subst d; lia).
  assert (Hcases : fl < n \/ (fl = n /\ m = 0)) by nia.
  destruct Hcases as [Hlt|[-> Hm0]].
  - repeat match goal with |- context [Z.ltb ?a ?b] => destruct (Z.ltb_spec a b) end;
      try destruct (Z.even _); lia.
  - destruct (Z.ltb_spec (2 * m) d); [lia | lia].
Qed.

Lemma extra_service_time_bounds (extra : Q) :
  (5 <= extra)%Q -> (extra <= 15)%Q ->
  300000000 <= timedelta_minutes extra <= 900000000.
Proof.
  intros Hlo Hhi. unfold timedelta_minutes, us_per_minute. split.
  - apply round_half_even_lower.
    apply Qle_trans with (5 * inject_Z 60000000)%Q; [vm_compute; discriminate|].
    apply Qmult_le_compat_r; [exact Hlo | discriminate].
  - apply round_half_even_upper.
    apply Qle_trans with (15 * inject_Z 60000000)%Q; [|vm_compute; discriminate].
    apply Qmult_le_compat_r; [exact Hhi | discriminate].
Qed.

(** The multiplier of the subclass, for random values in the unit
    interval: it lies between 0.8 and 1.2 or between 1.5 and 3.5, never in
    between; a first random value below 0.3 gives a multiplier of at least
    2 after two draws, and every other case takes three draws. *)
Theorem delayed_multiplier_tiers (random : nat -> Q) (k : nat) :
  (forall i, (0 <= random i)%Q /\ (random i <= 1)%Q) ->
  let m := fst (delayed_generate_traffic_multiplier random k) in
  let k' := snd (delayed_generate_traffic_multiplier random k) in
  (((8 # 10 <= m)%Q /\ (m <= 12 # 10)%Q) \/ ((15 # 10 <= m)%Q /\ (m <= 35 # 10)%Q)) /\
  ((random k < 3 # 10)%Q -> (2 <= m)%Q /\ k' = (k + 2)%nat) /\
  (~ (random k < 3 # 10)%Q -> k' = (k + 3)%nat).
Proof.
  intros Hunit. cbv zeta. unfold delayed_generate_traffic_multiplier.
  destruct (Qgtb (3 # 10) (random k)) eqn:E1;
    [apply Qgtb_iff in E1 | apply Qgtb_false_iff in E1].
  - destruct (uniform_in_range random 2 (35 # 10) (S k))
      as (Hlo & Hhi & Hk); [discriminate | apply Hunit ..|].
    rewrite Hk. split; [right; split; [lra | exact Hhi]|].
    split; [intros _; split; [exact Hlo | lia] | intros Hn; contradiction].
  - destruct (Qgtb (5 # 10) (random (S k))) eqn:E2.
    + destruct (uniform_in_range random (15 # 10) 2 (S (S k)))
        as (Hlo & Hhi & Hk); [discriminate | apply Hunit ..|].
      rewrite Hk. split; [right; split; [exact Hlo | lra]|].
      split; [intros Hlt; lra | intros _; lia].
    + destruct (uniform_in_range random (8 # 10) (12 # 10) (S (S k)))
        as (Hlo & Hhi & Hk); [discriminate | apply Hunit ..|].
      rewrite Hk. split; [left; split; assumption|].
      split; [intros Hlt; lra | intros _; lia].
Qed.

Lemma delayed_multiplier_tiers_witness :
  (15 # 10 <= fst (delayed_generate_traffic_multiplier demo_random 0))%Q /\
  snd (delayed_generate_traffic_multiplier demo_random 0) = 2%nat.
Proof.
  destruct (delayed_multiplier_tiers demo_random 0
              ltac:(intros i; split; vm_compute; discriminate))
    as (_ & Hheavy & _).
  destruct (Hheavy ltac:(vm_compute; reflexivity)) as [Hm Hk].
  split; [lra | exact Hk].
Defined.

Section DelayedEngine.
Variable geodesic : point -> point -> result Q.
Variable fromisoformat : string -> result datetime.
Variable random : nat -> Q.
Variable config : ETAConfig.

Hypothesis random_in_unit_interval :
  forall i, (0 <= random i)%Q /\ (random i <= 1)%Q.

Abbreviation extend' := (extend_service_time fromisoformat random config).

Lemma extend_service_time_step (acc acc' : list ETAResult * nat) (r : ETAResult) :
  extend' acc r = Ok acc' ->
  exists r',
    fst acc' = fst acc ++ [r'] /\
    (snd acc + 1 <= snd acc' <= snd acc + 2)%nat /\
    same_stop_fields r r' /\ extension_of fromisoformat config r r'.
Proof.
  unfold extend_service_time.
  destruct (Qgtb (2 # 10) (random (snd acc))).
  - destruct (uniform_in_range random 5 15 (S (snd acc)))
      as (Hlo & Hhi & Hk); [discriminate | apply random_in_unit_interval ..|].
    destruct (uniform random 5 15 (S (snd acc))) as [extra k'] eqn:Hu.
    cbn [fst snd] in Hlo, Hhi, Hk. subst k'.
    intros H. apply bind_Ok in H as (planned & Hp & H).
    apply bind_Ok in H as (delta & Hsub & H). injection H as <-.
    eexists. cbn [fst snd]. split; [reflexivity|]. split; [lia|].
    split; [repeat split|]. right. exists extra, planned, delta.
    cbn. repeat split; assumption.
  - intros [= <-]. exists r. cbn [fst snd]. split; [reflexivity|]. split; [lia|].
    split; [repeat split | now left].
Qed.

Lemma extend_service_times_loop (rs : list ETAResult) (acc acc' : list ETAResult * nat) :
  for_each extend' acc rs = Ok acc' ->
  exists out,
    fst acc' = fst acc ++ out /\
    (snd acc + length rs <= snd acc' <= snd acc + 2 * length rs)%nat /\
    Forall2 (fun r r' => same_stop_fields r r' /\ extension_of fromisoformat config r r')
            rs out.
Proof.
  revert acc. induction rs as [|r rs IH]; intros acc H; cbn in H.
  - injection H as <-. exists []. rewrite app_nil_r. cbn. repeat split; auto with lia.
  - apply bind_Ok in H as (acc1 & Hb & H).
    apply extend_service_time_step in Hb as (r' & Hacc1 & Hk1 & Hsame & Hext).
    apply IH in H as (out & Hout & Hk & Hall).
    exists (r' :: out). rewrite Hout, Hacc1, <- app_assoc. cbn [length].
    split; [reflexivity|]. split; [lia|]. constructor; auto.
Qed.


(** The extension never clears a delayed flag: a record whose flag was set
    from the planned time as this method reads it is still flagged after
    the extension. *)
Theorem extended_service_keeps_delayed_flags (k : nat) (base out : list ETAResult)
    (k' : nat) :
  for_each extend' ([], k) base = Ok (out, k') ->
  Forall2
    (fun r r' =>
       forall planned delta,
         fromisoformat (planned_eta r) = Ok planned ->
         dt_sub (calculated_eta r) planned = Ok delta ->
         is_delayed r = Qgtb (total_seconds delta / 60) (DELAY_THRESHOLD config) ->
         is_delayed r = true -> is_delayed r' = true)
    base out.
Proof.
  intros H. apply extend_service_times_loop in H as (out' & Hout & _ & Hall).
  cbn in Hout. subst out'.
  eapply Forall2_impl; [exact Hall|].
  intros r r' [_ [->|(extra & planned' & delta' & Hlo & Hhi & _ & Hc & Hp' & Hsub' & _ & Hflag')]]
         planned delta Hp Hsub Hflag Htrue; [exact Htrue|].
  rewrite Hp in Hp'. injection Hp' as <-.
  rewrite Hflag'. rewrite Hflag in Htrue.
  apply Qgtb_iff in Htrue. apply Qgtb_iff.
  eapply Qlt_le_trans; [exact Htrue|].
  assert (Hdelta : delta <= delta').
  { pose proof (extra_service_time_bounds extra Hlo Hhi) as Hb.
    rewrite Hc in Hsub'. unfold dt_sub in *. cbn [dt_add dt_us dt_utcoffset] in Hsub'.
    destruct (dt_utcoffset (calculated_eta r)), (dt_utcoffset planned);
      try discriminate; injection Hsub as <-; injection Hsub' as <-; lia. }
  unfold total_seconds, Qdiv. apply Qmult_le_compat_r; [|discriminate].
  unfold Qle. cbn [Qnum Qden]. lia.
Qed.

End DelayedEngine.

Lemma eager_random_in_unit_interval (i : nat) :
  (0 <= eager_random i)%Q /\ (eager_random i <= 1)%Q.
Proof. split; vm_compute; discriminate. Qed.


Lemma extended_service_keeps_delayed_flags_witness :
  exists r',
    for_each (extend_service_time iso_fromisoformat eager_random eta_config)
      ([], 0%nat) [half_hour_late] = Ok ([r'], 2%nat) /\
    is_delayed r' = true.
Proof.
  assert (Hrun : exists r',
             for_each (extend_service_time iso_fromisoformat eager_random eta_config)
               ([], 0%nat) [half_hour_late] = Ok ([r'], 2%nat))
    by (vm_compute; eauto).
  destruct Hrun as (r' & Hrun). exists r'. split; [exact Hrun|].
  pose proof (extended_service_keeps_delayed_flags iso_fromisoformat eager_random
                eta_config eager_random_in_unit_interval 0 [half_hour_late] [r']
                2 Hrun) as Hall.
  inversion Hall as [|? ? ? ? H _]; subst.
  refine (H (mk_datetime 1704101400000000 None) 1800000000 _ _ _ _);
    vm_compute; reflexivity.
Defined.

(** * The dashboard *)

Lemma result_bind_Ok {A B} (a : A) (f : A -> result B) : Ok a ≫= f = f a.
Proof. reflexivity. Qed.

Lemma mask_rows (P : Row -> Prop) `{!forall r, Decision (P r)} (rows : list Row) :
  fst <$> filter (fun rm : Row * bool => snd rm = true)
            (zip rows (map (fun r => bool_decide (P r)) rows))
  = filter P rows.
Proof.
  induction rows as [|r rows IH]; [reflexivity|].
  cbn [map zip zip_with]. rewrite !filter_cons. cbn [snd].
  destruct (decide (P r)) as [HP|HP].
  - rewrite (bool_decide_eq_true_2 _ HP).
    rewrite decide_True by reflexivity. cbn [fmap list_fmap fst]. f_equal. exact IH.
  - rewrite (bool_decide_eq_false_2 _ HP).
    rewrite decide_False by discriminate. exact IH.
Qed.

Lemma rows_where_filter (P : Row -> Prop) `{!forall r, Decision (P r)} (df : DataFrame) :
  rows_where df (map (fun r => bool_decide (P r)) (df_rows df))
  = {| df_columns := df_columns df; df_rows := filter P (df_rows df) |}.
Proof. unfold rows_where. now rewrite mask_rows. Qed.

Lemma elem_of_unique (x : string) (l : list string) : x ∈ unique l <-> x ∈ l.
Proof.
  induction l as [|a l IH]; cbn [unique]; [reflexivity|].
  rewrite !elem_of_cons, list_elem_of_filter, IH.
  destruct (decide (x = a)); tauto.
Qed.

Lemma NoDup_unique (l : list string) : NoDup (unique l).
Proof.
  induction l as [|a l IH]; cbn [unique]; constructor.
  - rewrite list_elem_of_filter. intros [H _]. now apply H.
  - now apply NoDup_filter.
Qed.

Lemma sum_list_map_add {A} (f g : A -> nat) (l : list A) :
  sum_list (map (fun x => f x + g x)%nat l)
  = (sum_list (map f l) + sum_list (map g l))%nat.
Proof. induction l as [|x l IH]; cbn; [reflexivity | rewrite IH; lia]. Qed.

Lemma sum_list_indicator (x : string) (ds : list string) :
  NoDup ds -> x ∈ ds ->
  sum_list (map (fun d => if decide (x = d) then 1 else 0)%nat ds) = 1%nat.
Proof.
  induction 1 as [|d ds Hd Hnd IH]; intros Hx; [now apply elem_of_nil in Hx|].
  cbn [map sum_list]. apply elem_of_cons in Hx as [->|Hx].
  - rewrite decide_True by reflexivity.
    assert (Hz : sum_list (map (fun d' => if decide (d = d') then 1 else 0)%nat ds) = 0%nat).
    { clear IH Hnd. induction ds as [|d' ds IHds]; [reflexivity|].
      cbn [map sum_list]. rewrite not_elem_of_cons in Hd. destruct Hd as [Hne Hd].
      rewrite decide_False by exact Hne. now rewrite IHds. }
    rewrite Hz. reflexivity.
  - rewrite decide_False by (intros ->; contradiction). now rewrite IH.
Qed.

(** The rows of a frame, counted driver by driver. *)
Lemma sum_counts (ds : list string) (rows : list Row) :
  NoDup ds -> (forall r, r ∈ rows -> driver_id (row_eta r) ∈ ds) ->
  sum_list (map (fun d => length (filter (fun r => driver_id (row_eta r) = d) rows)) ds)
  = length rows.
Proof.
  intros Hnd. induction rows as [|r rows IH]; intros Hall.
  - clear Hnd Hall. induction ds as [|d ds IHds]; [reflexivity|].
    cbn [map sum_list]. rewrite IHds. reflexivity.
  - rewrite (map_ext _ (fun d => (if decide (driver_id (row_eta r) = d) then 1 else 0)
                                 + length (filter (fun r => driver_id (row_eta r) = d) rows))%nat).
    + rewrite sum_list_map_add, sum_list_indicator, IH; [reflexivity | | exact Hnd |].
      * intros r' Hr'. apply Hall. now right.
      * apply Hall. left.
    + intros d. rewrite filter_cons. destruct (decide (driver_id (row_eta r) = d)); reflexivity.
Qed.

Lemma flagged_filter (P : Row -> Prop) `{!forall r, Decision (P r)} (rows : list Row) :
  flagged (filter P rows) = filter P (flagged rows).
Proof.
  unfold flagged. induction rows as [|r rows IH]; [reflexivity|].
  rewrite !filter_cons.
  destruct (decide (P r)), (decide (is_delayed (row_eta r) = true));
    rewrite ?filter_cons, ?decide_True, ?decide_False by assumption; now rewrite IH.
Qed.

Lemma flag_partition (rows : list Row) :
  (length (flagged rows)
   + length (filter (fun r => is_delayed (row_eta r) = false) rows))%nat
  = length rows.
Proof.
  unfold flagged. induction rows as [|r rows IH]; [reflexivity|].
  rewrite !filter_cons. destruct (is_delayed (row_eta r)).
  - rewrite decide_True, decide_False by (reflexivity || discriminate). cbn [length]. lia.
  - rewrite decide_False, decide_True by (reflexivity || discriminate). cbn [length]. lia.
Qed.

Section Dashboard.
Variable df : DataFrame.
Hypothesis has_driver_id : "driver_id" ∈ df_columns df.
Hypothesis has_is_delayed : "is_delayed" ∈ df_columns df.
Hypothesis has_delay_minutes : "delay_minutes" ∈ df_columns df.
Hypothesis has_distance_km : "distance_km" ∈ df_columns df.
Hypothesis has_avg_speed_kmh : "avg_speed_kmh" ∈ df_columns df.

Lemma driver_entry_run (drivers : list DriverData) (d : string) :
  driver_entry df drivers d = Ok (drivers ++ [summary_of df d]).
Proof.
  unfold driver_entry.
  rewrite (column_run "driver_id" driver_id df has_driver_id), result_bind_Ok.
  rewrite map_map.
  rewrite (rows_where_filter (fun r => driver_id (row_eta r) = d) df).
  fold (driver_rows df d).
  set (driver_data := {| df_columns := df_columns df; df_rows := driver_rows df d |}).
  rewrite (column_run "is_delayed" is_delayed driver_data has_is_delayed), result_bind_Ok.
  rewrite (column_run "delay_minutes" delay_minutes driver_data has_delay_minutes),
    result_bind_Ok.
  rewrite (column_run "distance_km" distance_km driver_data has_distance_km),
    result_bind_Ok.
  rewrite (column_run "avg_speed_kmh" avg_speed_kmh driver_data has_avg_speed_kmh),
    result_bind_Ok.
  rewrite !map_map.
  rewrite (rows_where_filter (fun r => is_delayed (row_eta r) = true) driver_data).
  rewrite (rows_where_filter (fun r => is_delayed (row_eta r) = false) driver_data).
  reflexivity.
Qed.

Lemma driver_entries_run (ds : list string) (acc : list DriverData) :
  for_each (driver_entry df) acc ds = Ok (acc ++ map (summary_of df) ds).
Proof.
  revert acc. induction ds as [|d ds IH]; intros acc; cbn [for_each map].
  - now rewrite app_nil_r.
  - rewrite driver_entry_run, result_bind_Ok, IH, <- app_assoc. reflexivity.
Qed.

Lemma _process_driver_data_run :
  _process_driver_data df
  = Ok (map (summary_of df) (unique (map (fun r => driver_id (row_eta r)) (df_rows df)))).
Proof.
  unfold _process_driver_data.
  rewrite (column_run "driver_id" driver_id df has_driver_id), result_bind_Ok.
  now rewrite driver_entries_run.
Qed.

Lemma summary_ids (ds : list string) : map drv_driver_id (map (summary_of df) ds) = ds.
Proof. rewrite map_map. cbn. apply map_id. Qed.

Lemma elem_of_summaries (e : DriverData) (ds : list string) :
  e ∈ map (summary_of df) ds -> exists d, d ∈ ds /\ e = summary_of df d.
Proof. intros H. apply list_elem_of_fmap in H as (d & -> & Hd). eauto. Qed.

(** The list the dashboard builds has one entry per driver of the frame,
    in the order the drivers first appear; the entry of a driver counts
    the rows of that driver, at least one, and the counts of all entries
    add up to the number of rows. *)
Theorem one_entry_per_driver :
  exists drivers,
    _process_driver_data df = Ok drivers /\
    map drv_driver_id drivers = unique (map (fun r => driver_id (row_eta r)) (df_rows df)) /\
    NoDup (map drv_driver_id drivers) /\
    (forall row, row ∈ df_rows df -> driver_id (row_eta row) ∈ map drv_driver_id drivers) /\
    (forall e, e ∈ drivers ->
       drv_total_stops e = length (driver_rows df (drv_driver_id e)) /\
       (1 <= drv_total_stops e)%nat) /\
    sum_list (map drv_total_stops drivers) = length (df_rows df).
Proof.
  eexists. split; [apply _process_driver_data_run|].
  rewrite summary_ids.
  assert (Hin : forall row, row ∈ df_rows df ->
            driver_id (row_eta row) ∈ unique (map (fun r => driver_id (row_eta r)) (df_rows df))).
  { intros row Hrow. apply elem_of_unique.
    apply list_elem_of_fmap. exists row. split; [reflexivity | exact Hrow]. }
  split; [reflexivity|]. split; [apply NoDup_unique|]. split; [exact Hin|]. split.
  - intros e He. apply elem_of_summaries in He as (d & Hd & ->).
    cbn [summary_of drv_total_stops drv_driver_id]. split; [reflexivity|].
    apply elem_of_unique, list_elem_of_fmap in Hd as (row & -> & Hrow).
    assert (Hmem : row ∈ driver_rows df (driver_id (row_eta row))).
    { apply list_elem_of_filter. split; [reflexivity | exact Hrow]. }
    destruct (driver_rows df (driver_id (row_eta row))); [now apply elem_of_nil in Hmem|].
    cbn [length]. lia.
  - rewrite map_map. cbn [summary_of drv_total_stops].
    apply sum_counts; [apply NoDup_unique | exact Hin].
Qed.

(** In every entry the delayed and the on-time stops add up to the stops
    of the driver; the status is "delayed" exactly when a row of the
    driver is flagged, and "on_time" otherwise; the delayed counts of all
    entries add up to the number of flagged rows of the frame. *)
Theorem entries_count_the_delays :
  exists drivers,
    _process_driver_data df = Ok drivers /\
    (forall e, e ∈ drivers ->
       (drv_delayed_stops e + drv_on_time_stops e)%nat = drv_total_stops e /\
       drv_delayed_stops e = length (flagged (driver_rows df (drv_driver_id e))) /\
       (drv_status e = "delayed" <->
        exists row, row ∈ df_rows df /\ driver_id (row_eta row) = drv_driver_id e /\
                    is_delayed (row_eta row) = true) /\
       (drv_status e = "on_time" <-> drv_delayed_stops e = 0%nat)) /\
    sum_list (map drv_delayed_stops drivers) = length (flagged (df_rows df)).
Proof.
  eexists. split; [apply _process_driver_data_run|]. split.
  - intros e He. apply elem_of_summaries in He as (d & Hd & ->).
    cbn [summary_of drv_total_stops drv_driver_id drv_delayed_stops drv_on_time_stops
         drv_status].
    split; [apply flag_partition|]. split; [reflexivity|].
    destruct (decide (0 < length (flagged (driver_rows df d)))%nat) as [Hpos|Hzero].
    + split; split; try discriminate; try lia.
      * intros _. destruct (flagged (driver_rows df d)) as [|row rest] eqn:E;
          [cbn in Hpos; lia|].
        assert (Hrow : row ∈ flagged (driver_rows df d)) by (rewrite E; left).
        unfold flagged, driver_rows in Hrow.
        apply list_elem_of_filter in Hrow as [Hflag Hrow].
        apply list_elem_of_filter in Hrow as [Hid Hrow]. eauto.
      * reflexivity.
    + split; split; try discriminate; try lia; try reflexivity.
      intros (row & Hrow & Hid & Hflag). exfalso. apply Hzero.
      assert (Hmem : row ∈ flagged (driver_rows df d)).
      { unfold flagged, driver_rows. rewrite !list_elem_of_filter. auto. }
      destruct (flagged (driver_rows df d)); [now apply elem_of_nil in Hmem|].
      cbn [length]. lia.
  - rewrite map_map. cbn [summary_of drv_delayed_stops].
    rewrite (map_ext _ (fun d => length (filter (fun r => driver_id (row_eta r) = d)
                                           (flagged (df_rows df))))).
    + apply sum_counts; [apply NoDup_unique|].
      intros r Hr. apply elem_of_unique, list_elem_of_fmap. exists r.
      split; [reflexivity|]. unfold flagged in Hr. now apply list_elem_of_filter in Hr as [_ ?].
    + intros d. unfold driver_rows. now rewrite flagged_filter.
Qed.

End Dashboard.

Lemma driver_id_column : "driver_id" ∈ eta_columns.
Proof. unfold eta_columns. set_solver. Qed.

Lemma distance_km_column : "distance_km" ∈ eta_columns.
Proof. unfold eta_columns. set_solver. Qed.

Lemma avg_speed_kmh_column : "avg_speed_kmh" ∈ eta_columns.
Proof. unfold eta_columns. set_solver. Qed.

Lemma one_entry_per_driver_witness :
  exists drivers,
    _process_driver_data dashboard_frame = Ok drivers /\
    map drv_driver_id drivers = ["driver_001"; "driver_002"] /\
    sum_list (map drv_total_stops drivers) = 3%nat.
Proof.
  destruct (one_entry_per_driver dashboard_frame driver_id_column is_delayed_column
              delay_minutes_column distance_km_column avg_speed_kmh_column)
    as (drivers & Hrun & Hids & _ & _ & _ & Hsum).
  exists drivers. split; [exact Hrun|]. split.
  - etransitivity; [exact Hids | vm_compute; reflexivity].
  - etransitivity; [exact Hsum | reflexivity].
Defined.

Lemma entries_count_the_delays_witness :
  exists drivers,
    _process_driver_data dashboard_frame = Ok drivers /\
    sum_list (map drv_delayed_stops drivers) = 2%nat.
Proof.
  destruct (entries_count_the_delays dashboard_frame driver_id_column is_delayed_column
              delay_minutes_column distance_km_column avg_speed_kmh_column)
    as (drivers & Hrun & _ & Hsum).
  exists drivers. split; [exact Hrun|].
  etransitivity; [exact Hsum | vm_compute; reflexivity].
Defined.
